(** * The e-mail anomaly API of [app.py]: model and verified properties

    A shallow embedding of the two JSON endpoints of [src/app.py],
    [fetch_emails] (GET /api/fetch-emails) and [analyze_email]
    (POST /api/analyze-email), together with the properties of the
    specification that are settled on it.

    Conventions.
    - Python [int] is [Z]; Python [float] is an IEEE binary64 value of
      [SpecFloat.spec_float] (precision 53, [emax] 1024) with the
      comparisons of [SpecFloat]; a [str] is the [string] of its UTF-8
      bytes, and its characters are counted and cut by [py_len] and
      [py_take], a character starting at every byte that is not a
      continuation byte.
    - A Python [dict] with string keys is an association list in insertion
      order, except the two constant [label_mapping] tables, which are only
      ever looked up and are finite maps [gmap string string].
    - A call that may raise returns a [result]; the calls made on the
      collaborators (mail connector, model layer, translator) are recorded
      in a trace, so that "how often was [disconnect] invoked" and "was the
      model invoked" are statements about a value.
    - [logger] calls have no influence on any value and are left out. *)

From Stdlib Require Import ZArith String List Lia Bool.
From Stdlib Require Import Floats.SpecFloat.
From stdpp Require Import base option list strings gmap fin_maps pretty.

Open Scope string_scope.
Open Scope Z_scope.

Set Warnings "-register-all".

(** ** Python values *)

Inductive pyval : Type :=
| PNone
| PBool (b : bool)
| PInt (z : Z)
| PFloat (f : spec_float)
| PStr (s : string)
| PList (l : list pyval)
| PDict (d : list (string * pyval)).

Abbreviation pydict := (list (string * pyval)).

(** [d.get(k)]: the value bound to [k], [None] when the key is absent. *)
Fixpoint dict_get (k : string) (d : pydict) : option pyval :=
  match d with
  | [] => None
  | (k', v) :: d' => if String.eqb k k' then Some v else dict_get k d'
  end.

(** [d[k] = v]: an existing key keeps its place, a new key goes last. *)
Fixpoint dict_set (k : string) (v : pyval) (d : pydict) : pydict :=
  match d with
  | [] => [(k, v)]
  | (k', v') :: d' =>
      if String.eqb k k' then (k, v) :: d' else (k', v') :: dict_set k v d'
  end.

(** [d.update(o)] for a dict [o]: the bindings of [o], in order. *)
Definition dict_update (d o : pydict) : pydict :=
  fold_left (fun acc kv => dict_set (fst kv) (snd kv) acc) o d.

(** ** IEEE binary64 *)

Module Float64.

Definition prec : Z := 53.
Definition emax : Z := 1024.

Definition ltb : spec_float -> spec_float -> bool := SFltb.
Definition leb : spec_float -> spec_float -> bool := SFleb.
Definition mul : spec_float -> spec_float -> spec_float := SFmul prec emax.

Definition is_nan (f : spec_float) : bool :=
  match f with S754_nan => true | _ => false end.

(** The float literals of the source, as the doubles they denote. *)
Definition lit_0_8 : spec_float := S754_finite false 7205759403792794 (-53).
Definition lit_0_5 : spec_float := S754_finite false 4503599627370496 (-53).
Definition lit_0_81 : spec_float := S754_finite false 7295831396340204 (-53).
Definition lit_0_6 : spec_float := S754_finite false 5404319552844595 (-53).
Definition lit_100 : spec_float := S754_finite false 7036874417766400 (-46).
Definition lit_0_0 : spec_float := S754_zero false.

(** [m * 2^e] is a double nearest to the decimal [n / d]: the distance
    is at most half a unit in the last place, [2^(e-1)], for [e < 0]. *)
Definition nearest_to (f : spec_float) (n d : Z) : bool :=
  match f with
  | S754_finite false m e =>
      (e <? 0) && valid_binary prec emax f
      && (2 * Z.abs (Z.pos m * d - n * 2 ^ (- e)) <=? d)
  | _ => false
  end.

(** Exact comparison [z > f] of a Python int with a float. *)
Definition Z_gtb (z : Z) (f : spec_float) : bool :=
  match f with
  | S754_nan => false
  | S754_infinity s => s
  | S754_zero _ => 0 <? z
  | S754_finite s m e =>
      let v := if s then Z.neg m else Z.pos m in
      if 0 <=? e then v * 2 ^ e <? z else v <? z * 2 ^ (- e)
  end.

End Float64.

(** ** Label normalizer *)

(** The table of [fetch_emails] (lines 152-158). *)
Definition label_mapping_fetch : gmap string string :=
  list_to_map
    [ ("LABEL_0", "Normal"); ("0", "Normal"); ("normal", "Normal");
      ("LABEL_1", "Pazar İhlali"); ("1", "Pazar İhlali"); ("anormal", "Anormal");
      ("LABEL_2", "İhale İhlali"); ("2", "İhale İhlali");
      ("LABEL_3", "Fiyat İhlali"); ("3", "Fiyat İhlali");
      ("LABEL_4", "Bilgi İhlali"); ("4", "Bilgi İhlali") ].

(** The table of [analyze_email] (lines 248-259). *)
Definition label_mapping_analyze : gmap string string :=
  list_to_map
    [ ("LABEL_0", "Normal");
      ("LABEL_1", "Pazar İhlali");
      ("LABEL_2", "İhale İhlali");
      ("LABEL_3", "Fiyat İhlali");
      ("LABEL_4", "Bilgi İhlali");
      ("0", "Normal");
      ("1", "Pazar İhlali");
      ("2", "İhale İhlali");
      ("3", "Fiyat İhlali");
      ("4", "Bilgi İhlali") ].

(** [label_mapping.get(prediction, prediction)] on a string token. *)
Definition label_get (label_mapping : gmap string string) (prediction : string)
  : string :=
  default prediction (label_mapping !! prediction).

Definition normalize_fetch : string -> string := label_get label_mapping_fetch.
Definition normalize_analyze : string -> string := label_get label_mapping_analyze.

(** ** Calls that may raise, and the trace of collaborator calls *)

(** The outcome of a call: a value, or an exception of class [Exception]
    given by its text [str(e)].  The texts of the errors raised by the
    Python runtime itself are CPython's; no property depends on them. *)
Inductive result (A : Type) : Type :=
| Ok (a : A)
| Raise (e : string).
Arguments Ok {A} a.
Arguments Raise {A} e.

#[global] Instance result_ret : MRet result := fun A a => Ok a.
#[global] Instance result_bind : MBind result := fun A B f r =>
  match r with
  | Ok a => f a
  | Raise e => Raise e
  end.
#[global] Instance result_fmap : FMap result := fun A B f r =>
  match r with
  | Ok a => Ok (f a)
  | Raise e => Raise e
  end.

(** The e-mail dictionaries handed over by the mail connector; a field is
    [None] when the key is absent ([email.get] supplies the default). *)
Record RawMessage : Type := {
  msg_subject : option string;
  msg_sender : option string;
  msg_date : option string;
  msg_content : option string
}.

(** One entry per call made on a collaborator, oldest first.  The index
    [i] of the model and translator calls is the loop index of the
    message being processed. *)
Inductive event : Type :=
| Connect
| SelectMailbox (mailbox : string)
| SearchEmails (criteria : string) (days_back : Z)
| FetchMultipleEmails (email_ids : list string) (max_emails : Z)
| Disconnect
| ModelAnalyzeEmail (i : nat) (content subject selected_model : string)
| TranslateEmailContent (i : nat) (email_data : pydict)
| AnalyzeSingleEmail (content subject : pyval).

(** A computation reads the trace so far and returns its outcome with the
    extended trace; an exception keeps the calls made before it. *)
Definition io (A : Type) : Type := list event -> result A * list event.

#[global] Instance io_ret : MRet io := fun A a tr => (Ok a, tr).
#[global] Instance io_bind : MBind io := fun A B f m tr =>
  match m tr with
  | (Ok a, tr') => f a tr'
  | (Raise e, tr') => (Raise e, tr')
  end.

(** A call on a collaborator: logged, then its outcome. *)
Definition call {A : Type} (ev : event) (outcome : result A) : io A :=
  fun tr => (outcome, (tr ++ [ev])%list).

(** A step of the runtime that may raise, with no collaborator call. *)
Definition lift {A : Type} (r : result A) : io A := fun tr => (r, tr).

(** [try: body  except Exception as e: handler e]. *)
Definition try_except {A : Type} (body : io A) (handler : string -> io A)
  : io A :=
  fun tr =>
    match body tr with
    | (Ok a, tr') => (Ok a, tr')
    | (Raise e, tr') => handler e tr'
    end.

(** Run a request handler from the empty trace. *)
Definition run {A : Type} (m : io A) : result A * list event := m [].

(** ** The collaborators (the global instances of lines 22-25) *)

Record MailFetcher : Type := {
  connect : result bool;
  select_mailbox : string -> result unit;
  search_emails : string -> Z -> result (list string);
  fetch_multiple_emails : list string -> Z -> result (list RawMessage);
  disconnect : result unit
}.

(** The answer may depend on the index of the message as well as on the
    texts: a model layer with state of its own is covered. *)
Record ModelManager : Type := {
  mm_analyze_email : nat -> string -> string -> string -> result pyval
}.

Record MailAnalyzer : Type := {
  analyze_single_email : pyval -> pyval -> result pyval
}.

(** The translator receives [email_data] itself, not a copy: it returns
    the dictionary as it has left it, and the overlay or an exception. *)
Record TranslationService : Type := {
  translate_email_content : nat -> pydict -> pydict * result pydict
}.

(** A global is [None] until [initialize_services] has assigned it. *)
Record Services : Type := {
  mail_fetcher : option MailFetcher;
  mail_analyzer : option MailAnalyzer;
  model_manager : option ModelManager;
  translation_service : option TranslationService
}.

(** What the handlers use of Python itself and is not modelled further. *)
Record Builtins : Type := {
  py_int : string -> result Z;            (* int(s) for a str s *)
  py_round : spec_float -> Z -> spec_float;  (* round(x, ndigits) on a float *)
  py_repr : pyval -> string;              (* str(v) for v that is not a str *)
  now_isoformat : string                  (* datetime.now().isoformat() *)
}.

(** A JSON response and its HTTP status. *)
Record Response : Type := {
  body : pydict;
  status_code : Z
}.

Definition jsonify (d : pydict) : Response :=
  {| body := d; status_code := 200 |}.

Definition jsonify_status (d : pydict) (code : Z) : Response :=
  {| body := d; status_code := code |}.

(** ** Operations of the runtime on values *)

(** Truth value of [v] in [if v:] and [not v]. *)
Definition truthy (v : pyval) : bool :=
  match v with
  | PNone => false
  | PBool b => b
  | PInt z => negb (z =? 0)
  | PFloat f => negb (SFeqb f (S754_zero false))
  | PStr s => negb (String.eqb s "")
  | PList l => match l with [] => false | _ :: _ => true end
  | PDict d => match d with [] => false | _ :: _ => true end
  end.

(** [v == s] for a str [s]. *)
Definition py_eq_str (v : pyval) (s : string) : bool :=
  match v with
  | PStr t => String.eqb t s
  | _ => false
  end.

(** [v.get(k, dflt)]. *)
Definition py_get (v : pyval) (k : string) (dflt : pyval) : result pyval :=
  match v with
  | PDict d => Ok (default dflt (dict_get k d))
  | _ => Raise "object has no attribute 'get'"
  end.

(** [k in v] for a str [k]. *)
Definition py_contains (k : string) (v : pyval) : result bool :=
  match v with
  | PDict d => Ok (bool_decide (is_Some (dict_get k d)))
  | PList l => Ok (existsb (fun x => py_eq_str x k) l)
  | PStr s => Ok (bool_decide (is_Some (String.index 0 k s)))
  | _ => Raise "argument is not iterable"
  end.

(** [v[k]] for a str [k]. *)
Definition py_getitem (v : pyval) (k : string) : result pyval :=
  match v with
  | PDict d =>
      match dict_get k d with
      | Some x => Ok x
      | None => Raise k
      end
  | _ => Raise "indices must be integers"
  end.

(** [v > f] for a float literal [f]. *)
Definition py_gt (v : pyval) (f : spec_float) : result bool :=
  match v with
  | PFloat x => Ok (Float64.ltb f x)
  | PInt z => Ok (Float64.Z_gtb z f)
  | PBool b => Ok (Float64.Z_gtb (if b then 1 else 0) f)
  | _ => Raise "'>' not supported"
  end.

(** [str(v)] inside an f-string. *)
Definition py_str (py : Builtins) (v : pyval) : string :=
  match v with
  | PStr s => s
  | _ => py_repr py v
  end.

(** [l[start:stop]]: a negative index counts from the end, and both are
    clamped to [0 .. len(l)]. *)
Definition slice_index (len i : Z) : Z :=
  if i <? 0 then Z.max (i + len) 0 else Z.min i len.

Definition py_slice {A : Type} (l : list A) (start stop : Z) : list A :=
  let len := Z.of_nat (length l) in
  let lo := slice_index len start in
  let hi := slice_index len stop in
  take (Z.to_nat (hi - lo)) (drop (Z.to_nat lo) l).

(** [a // b]. *)
Definition py_floordiv (a b : Z) : result Z :=
  if b =? 0 then Raise "integer division or modulo by zero" else Ok (a / b).

(** [round(confidence * 100, 2)]. *)
Definition round_percent (py : Builtins) (confidence : pyval) : result pyval :=
  match confidence with
  | PFloat x => Ok (PFloat (py_round py (Float64.mul x Float64.lit_100) 2))
  | PInt z => Ok (PInt (z * 100))
  | PBool b => Ok (PInt ((if b then 1 else 0) * 100))
  | PStr _ | PList _ => Raise "type doesn't define __round__ method"
  | PNone | PDict _ => Raise "unsupported operand type(s) for *"
  end.

(** [label_mapping.get(prediction, prediction)]: only a str can equal a
    key; a list or a dict cannot be hashed. *)
Definition label_mapping_get (label_mapping : gmap string string)
    (prediction : pyval) : result pyval :=
  match prediction with
  | PStr s => Ok (PStr (label_get label_mapping s))
  | PList _ | PDict _ => Raise "unhashable type"
  | _ => Ok prediction
  end.
(** ** Confidence level (lines 269-274) *)

Definition confidence_level (confidence : pyval) : result string :=
  high ← py_gt confidence Float64.lit_0_8;
  if (high : bool) then Ok "Yüksek"
  else
    medium ← py_gt confidence Float64.lit_0_5;
    if (medium : bool) then Ok "Orta" else Ok "Düşük".

(** ** Pagination (lines 109-116) *)

Record Pagination (A : Type) : Type := {
  total_emails : Z;
  total_pages : Z;
  start_idx : Z;
  end_idx : Z;
  page_email_ids : list A
}.
Arguments total_emails {A} _.
Arguments total_pages {A} _.
Arguments start_idx {A} _.
Arguments end_idx {A} _.
Arguments page_email_ids {A} _.

Definition calculate_pagination {A : Type} (email_ids : list A)
    (page per_page : Z) : result (Pagination A) :=
  let total_emails := Z.of_nat (length email_ids) in
  total_pages ← py_floordiv (total_emails + per_page - 1) per_page;
  let start_idx := (page - 1) * per_page in
  let end_idx := start_idx + per_page in
  let reversed_email_ids := rev email_ids in
  Ok {| total_emails := total_emails;
        total_pages := total_pages;
        start_idx := start_idx;
        end_idx := end_idx;
        page_email_ids := py_slice reversed_email_ids start_idx end_idx |}.

(** ** The request handlers *)

(** The query string of GET /api/fetch-emails. *)
Record Request : Type := {
  args_page : option string;
  args_per_page : option string;
  args_model : option string
}.

(** The analysis block of a message that was not classified. *)
Definition fallback_analysis (status prediction : string) : pyval :=
  PDict [ ("status", PStr status);
          ("is_normal", PNone);
          ("confidence", PInt 0);
          ("prediction", PStr prediction) ].

(** [len(s)] and [s[:n]] on a str.  The bytes of a character are one
    lead byte followed by its continuation bytes ([10xxxxxx]), so the
    characters are counted by the lead bytes, and a prefix of [n]
    characters ends before the lead byte of character [n]. *)
Definition is_continuation (c : Ascii.ascii) : bool :=
  match c with
  | Ascii.Ascii _ _ _ _ _ _ b6 b7 => b7 && negb b6
  end.

Fixpoint py_len (s : string) : nat :=
  match s with
  | EmptyString => 0%nat
  | String c s' => if is_continuation c then py_len s' else S (py_len s')
  end.

Fixpoint py_take (n : nat) (s : string) : string :=
  match s with
  | EmptyString => EmptyString
  | String c s' =>
      if is_continuation c then String c (py_take n s')
      else match n with
           | O => EmptyString
           | S n' => String c (py_take n' s')
           end
  end.

(** The preview of line 132. *)
Definition preview (content : string) : string :=
  if 150 <? Z.of_nat (py_len content)
  then py_take 150 content +:+ "..."
  else content.

(** Lines 126-133: [email_data] before the analysis is attached. *)
Definition email_fields (start_idx : Z) (i : nat) (email : RawMessage)
  : pydict :=
  [ ("id", PInt (start_idx + Z.of_nat i));
    ("subject", PStr (default "No Subject" (msg_subject email)));
    ("sender", PStr (default "Unknown Sender" (msg_sender email)));
    ("date", PStr (default "Unknown Date" (msg_date email)));
    ("content", PStr (default "" (msg_content email)));
    ("preview", PStr (preview (default "" (msg_content email)))) ].

Section Handlers.

Context (py : Builtins) (app : Services).

(** [int(request.args.get(name, dflt))]. *)
Definition int_arg (arg : option string) (dflt : Z) : result Z :=
  match arg with
  | Some s => py_int py s
  | None => Ok dflt
  end.

(** Lines 148-173: the block built from a truthy [analysis_result]. *)
Definition classified_analysis (analysis_result : pyval) : result pyval :=
  prediction ← py_get analysis_result "prediction" (PStr "UNKNOWN");
  confidence ← py_get analysis_result "confidence" (PFloat Float64.lit_0_0);
  anomaly_type ← label_mapping_get label_mapping_fetch prediction;
  let is_normal := py_eq_str anomaly_type "Normal" in
  rounded ← round_percent py confidence;
  Ok (PDict [ ("status", anomaly_type);
              ("is_normal", PBool is_normal);
              ("confidence", rounded);
              ("prediction", prediction) ]).

(** Lines 136-195: the analysis block of the message at loop index [i]. *)
Definition analyze_message (i : nat) (email : RawMessage)
    (selected_model : string) : io pyval :=
  if truthy (from_option PStr PNone (msg_content email)) then
    try_except
      (analysis_result ←
         match model_manager app with
         | Some mm =>
             call (ModelAnalyzeEmail i (default "" (msg_content email))
                     (default "" (msg_subject email)) selected_model)
                  (mm_analyze_email mm i (default "" (msg_content email))
                     (default "" (msg_subject email)) selected_model)
         | None => mret PNone
         end;
       if truthy analysis_result
       then lift (classified_analysis analysis_result)
       else mret (fallback_analysis "Analiz Edilemedi" "UNKNOWN"))
      (fun analysis_error => mret (fallback_analysis "Analiz Hatası" "ERROR"))
  else mret (fallback_analysis "Analiz Edilemedi" "NO_ANALYZER").

(** Lines 198-203: the translation overlay, when there is a translator. *)
Definition translate_message (i : nat) (email_data : pydict) : io pydict :=
  match translation_service app with
  | Some ts =>
      let '(email_data', outcome) :=
        translate_email_content ts i email_data in
      try_except
        (translated_email ← call (TranslateEmailContent i email_data) outcome;
         mret (dict_update email_data' translated_email))
        (fun translation_error => mret email_data')
  | None => mret email_data
  end.

(** Lines 126-205: one round of the loop. *)
Definition format_email (start_idx : Z) (selected_model : string)
    (i : nat) (email : RawMessage) : io pydict :=
  let email_data := email_fields start_idx i email in
  analysis ← analyze_message i email selected_model;
  let email_data := dict_set "analysis" analysis email_data in
  translate_message i email_data.

(** Lines 124-205: [for i, email in enumerate(emails)], from index [i]. *)
Fixpoint format_emails (start_idx : Z) (selected_model : string)
    (i : nat) (emails : list RawMessage) : io (list pydict) :=
  match emails with
  | [] => mret []
  | email :: rest =>
      email_data ← format_email start_idx selected_model i email;
      formatted_emails ← format_emails start_idx selected_model (S i) rest;
      mret (email_data :: formatted_emails)
  end.

(** Lines 76-221. *)
Definition fetch_emails (request : Request) : io Response :=
  try_except
    (match mail_fetcher app with
     | None =>
         mret (jsonify_status
                 [("error", PStr "Mail fetcher not initialized")] 500)
     | Some mf =>
         page ← lift (int_arg (args_page request) 1);
         per_page ← lift (int_arg (args_per_page request) 10);
         let selected_model := default "transformer" (args_model request) in
         connected ← call Connect (connect mf);
         if negb connected then
           mret (jsonify_status
                   [("error", PStr "Failed to connect to email server")] 500)
         else
           call (SelectMailbox "INBOX") (select_mailbox mf "INBOX");;
           email_ids ← call (SearchEmails "ALL" 30) (search_emails mf "ALL" 30);
           match email_ids with
           | [] =>
               call Disconnect (disconnect mf);;
               mret (jsonify
                       [ ("emails", PList []);
                         ("total_emails", PInt 0);
                         ("current_page", PInt page);
                         ("total_pages", PInt 0);
                         ("per_page", PInt per_page);
                         ("message", PStr "No emails found") ])
           | _ :: _ =>
               pg ← lift (calculate_pagination email_ids page per_page);
               emails ←
                 call (FetchMultipleEmails (page_email_ids pg) per_page)
                      (fetch_multiple_emails mf (page_email_ids pg) per_page);
               call Disconnect (disconnect mf);;
               formatted_emails ←
                 format_emails (start_idx pg) selected_model 0%nat emails;
               mret (jsonify
                       [ ("emails", PList (map PDict formatted_emails));
                         ("total_emails", PInt (total_emails pg));
                         ("current_page", PInt page);
                         ("total_pages", PInt (total_pages pg));
                         ("per_page", PInt per_page);
                         ("start_index", PInt (start_idx pg + 1));
                         ("end_index",
                          PInt (Z.min (start_idx pg + per_page)
                                      (total_emails pg)));
                         ("message",
                          PStr (pretty (length formatted_emails)
                                +:+ " emails fetched and analyzed successfully")) ])
           end
     end)
    (fun e =>
       mret (jsonify_status
               [("error", PStr ("Failed to fetch emails: " +:+ e))] 500)).

(** Lines 224-289; [request_json] is the outcome of [request.get_json()]. *)
Definition analyze_email (request_json : result pyval) : io Response :=
  try_except
    (match mail_analyzer app with
     | None =>
         mret (jsonify_status
                 [("error", PStr "Mail analyzer not initialized")] 500)
     | Some ma =>
         data ← lift request_json;
         missing ←
           lift (if negb (truthy data) then Ok true
                 else has ← py_contains "content" data; Ok (negb has));
         if (missing : bool) then
           mret (jsonify_status
                   [("error", PStr "Email content is required")] 400)
         else
           email_content ← lift (py_getitem data "content");
           email_subject ← lift (py_get data "subject" (PStr ""));
           analysis_result ←
             call (AnalyzeSingleEmail email_content email_subject)
                  (analyze_single_email ma email_content email_subject);
           if negb (truthy analysis_result) then
             mret (jsonify_status
                     [("error", PStr "Failed to analyze email")] 500)
           else
             prediction ←
               lift (py_get analysis_result "prediction" (PStr "UNKNOWN"));
             confidence ←
               lift (py_get analysis_result "confidence"
                       (PFloat Float64.lit_0_0));
             anomaly_type ←
               lift (label_mapping_get label_mapping_analyze prediction);
             let is_normal := py_eq_str anomaly_type "Normal" in
             let status := anomaly_type in
             confidence_level ← lift (confidence_level confidence);
             rounded ← lift (round_percent py confidence);
             mret (jsonify
                     [ ("status", status);
                       ("is_normal", PBool is_normal);
                       ("confidence", rounded);
                       ("confidence_level", PStr confidence_level);
                       ("prediction", prediction);
                       ("analysis_time", PStr (now_isoformat py));
                       ("message",
                        PStr ("Email analizi tamamlandı. Sonuç: "
                              +:+ py_str py status)) ])
     end)
    (fun e =>
       mret (jsonify_status
               [("error", PStr ("Failed to analyze email: " +:+ e))] 500)).

End Handlers.

(** ** What the properties observe *)

(** How often [disconnect] was invoked. *)
Definition is_disconnect (ev : event) : bool :=
  match ev with
  | Disconnect => true
  | _ => false
  end.

Definition count_disconnect (tr : list event) : nat :=
  length (List.filter is_disconnect tr).

(** The calls made on the model layer, for any message. *)
Definition is_model_call (ev : event) : bool :=
  match ev with
  | ModelAnalyzeEmail _ _ _ _ => true
  | _ => false
  end.

(** The translator leaves the binding of [k] alone: it neither rebinds it
    in the dictionary it is given nor binds it in its overlay. *)
Definition translator_keeps (k : string) (app : Services) : Prop :=
  forall ts i d,
    translation_service app = Some ts ->
    dict_get k (fst (translate_email_content ts i d)) = dict_get k d /\
    forall o, snd (translate_email_content ts i d) = Ok o -> dict_get k o = None.

(** The list under ['emails'] of a response. *)
Definition response_emails (r : Response) : list pyval :=
  match dict_get "emails" (body r) with
  | Some (PList l) => l
  | _ => []
  end.

(** The value under ['start_index'] of a response. *)
Definition response_start_index (r : Response) : option pyval :=
  dict_get "start_index" (body r).

(** The ['id'] of the message at offset [i] of a response. *)
Definition response_id (r : Response) (i : nat) : option pyval :=
  match response_emails r !! i with
  | Some (PDict d) => dict_get "id" d
  | _ => None
  end.

(** The ['analysis'] of the message at offset [i] of a response. *)
Definition response_analysis (r : Response) (i : nat) : option pyval :=
  match response_emails r !! i with
  | Some (PDict d) => dict_get "analysis" d
  | _ => None
  end.

(** [n = ceil(t / per_page)] for [per_page > 0], without division. *)
Definition is_ceil_div (t per_page n : Z) : Prop :=
  (n - 1) * per_page < t <= n * per_page.

(** The calls of a request up to the loop over the fetched messages. *)
Definition page_calls (ids : list string) (per_page : Z) : list event :=
  [ Connect; SelectMailbox "INBOX"; SearchEmails "ALL" 30;
    FetchMultipleEmails ids per_page; Disconnect ].

(** The field [k] of an analysis block. *)
Definition block_field (k : string) (block : pyval) : option pyval :=
  match block with
  | PDict d => dict_get k d
  | _ => None
  end.

(** The three fallback blocks. *)
Definition is_fallback (block : pyval) : Prop :=
  block = fallback_analysis "Analiz Edilemedi" "NO_ANALYZER" \/
  block = fallback_analysis "Analiz Edilemedi" "UNKNOWN" \/
  block = fallback_analysis "Analiz Hatası" "ERROR".

(** The calls made for the message at loop index [i]. *)
Definition is_call_for (i : nat) (ev : event) : bool :=
  match ev with
  | ModelAnalyzeEmail j _ _ _ => Nat.eqb i j
  | TranslateEmailContent j _ => Nat.eqb i j
  | _ => false
  end.

(** ** Sample collaborators, for the concrete runs below *)

(** Builtins that do on the sample inputs what Python does: the query
    strings used are ["1"] and ["10"], and the scores rounded have no more
    than two decimals. *)
Definition sample_builtins : Builtins :=
  {| py_int := fun s =>
       if String.eqb s "1" then Ok 1
       else if String.eqb s "10" then Ok 10
       else Raise "invalid literal for int() with base 10";
     py_round := fun x _ => x;
     py_repr := fun _ => "";
     now_isoformat := "2024-01-01T00:00:00" |}.

Definition sample_message : RawMessage :=
  {| msg_subject := Some "Teklif";
     msg_sender := Some "a@example.com";
     msg_date := Some "Mon, 01 Jan 2024";
     msg_content := Some "Merhaba" |}.

(** A mailbox with two messages, on a connection that works. *)
Definition working_fetcher : MailFetcher :=
  {| connect := Ok true;
     select_mailbox := fun _ => Ok tt;
     search_emails := fun _ _ => Ok ["1"; "2"];
     fetch_multiple_emails := fun ids _ => Ok (map (fun _ => sample_message) ids);
     disconnect := Ok tt |}.

(** A connection that is established and then lost: [select_mailbox]
    raises. *)
Definition failing_fetcher : MailFetcher :=
  {| connect := Ok true;
     select_mailbox := fun _ => Raise "socket error: EOF";
     search_emails := fun _ _ => Ok ["1"];
     fetch_multiple_emails := fun ids _ => Ok (map (fun _ => sample_message) ids);
     disconnect := Ok tt |}.

(** An empty mailbox. *)
Definition empty_fetcher : MailFetcher :=
  {| connect := Ok true;
     select_mailbox := fun _ => Ok tt;
     search_emails := fun _ _ => Ok [];
     fetch_multiple_emails := fun _ _ => Ok [];
     disconnect := Ok tt |}.

(** A model layer that raises on the first message and answers
    ['LABEL_0'] with score 0.5 on the others. *)
Definition flaky_model : ModelManager :=
  {| mm_analyze_email := fun i _ _ _ =>
       match i with
       | O => Raise "CUDA out of memory"
       | S _ => Ok (PDict [ ("prediction", PStr "LABEL_0");
                            ("confidence", PFloat Float64.lit_0_5) ])
       end |}.

(** A model layer whose raw token is the text of a fallback status. *)
Definition echo_model : ModelManager :=
  {| mm_analyze_email := fun _ _ _ _ =>
       Ok (PDict [ ("prediction", PStr "Analiz Hatası");
                   ("confidence", PFloat Float64.lit_0_5) ]) |}.

Definition services_with (mf : MailFetcher) (mm : option ModelManager)
  : Services :=
  {| mail_fetcher := Some mf;
     mail_analyzer := None;
     model_manager := mm;
     translation_service := None |}.

Definition default_request : Request :=
  {| args_page := None; args_per_page := None; args_model := None |}.

Definition silent_message : RawMessage :=
  {| msg_subject := Some "Teklif";
     msg_sender := None;
     msg_date := None;
     msg_content := None |}.

(** The first page of the two-message mailbox, analyzed by [flaky_model]. *)
Definition sample_page_run : result Response * list event :=
  run (fetch_emails sample_builtins
         (services_with working_fetcher (Some flaky_model)) default_request).

(** ** Start-up and status (lines 27-63, 291-307, 317-323) *)

(** What [app.py] imports (lines 9-12) and the handlers above do not use:
    the constructors, the loaders and the status query of the model
    manager, each as the outcome of its call.  A loader returns a value
    of which only the truth is used; [get_translation_service] returns
    the object that is stored, [None] when it is falsy. *)
Record Imports : Type := {
  MailFetcher_new : result MailFetcher;
  MailAnalyzer_new : result MailAnalyzer;
  MailAnalyzer_load_model : MailAnalyzer -> result pyval;
  ModelManager_new : result ModelManager;
  ModelManager_load_models : ModelManager -> result pyval;
  ModelManager_get_model_status : ModelManager -> result pyval;
  get_translation_service : result (option TranslationService)
}.

(** Lines 27-63.  The globals are assigned one by one, so the function
    maps the globals before the call to its return value and the globals
    after it; an exception at any step is caught and gives [False]. *)
Definition initialize_services (imp : Imports) (g : Services)
  : bool * Services :=
  match MailFetcher_new imp with
  | Raise _ => (false, g)
  | Ok mf =>
    let g := {| mail_fetcher := Some mf;
                mail_analyzer := mail_analyzer g;
                model_manager := model_manager g;
                translation_service := translation_service g |} in
    match MailAnalyzer_new imp with
    | Raise _ => (false, g)
    | Ok ma =>
      let g := {| mail_fetcher := mail_fetcher g;
                  mail_analyzer := Some ma;
                  model_manager := model_manager g;
                  translation_service := translation_service g |} in
      match MailAnalyzer_load_model imp ma with
      | Raise _ => (false, g)
      | Ok _ =>
        match ModelManager_new imp with
        | Raise _ => (false, g)
        | Ok mm =>
          let g := {| mail_fetcher := mail_fetcher g;
                      mail_analyzer := mail_analyzer g;
                      model_manager := Some mm;
                      translation_service := translation_service g |} in
          match ModelManager_load_models imp mm with
          | Raise _ => (false, g)
          | Ok models_loaded =>
            match get_translation_service imp with
            | Raise _ => (false, g)
            | Ok ts =>
              let g := {| mail_fetcher := mail_fetcher g;
                          mail_analyzer := mail_analyzer g;
                          model_manager := model_manager g;
                          translation_service := ts |} in
              if truthy models_loaded then
                match ModelManager_get_model_status imp mm with
                | Raise _ => (false, g)
                | Ok status =>
                  match py_getitem status "logistic_loaded" with
                  | Raise _ => (false, g)
                  | Ok _ =>
                    match py_getitem status "svm_loaded" with
                    | Raise _ => (false, g)
                    | Ok _ => (true, g)
                    end
                  end
                end
              else (false, g)
            end
          end
        end
      end
    end
  end.

(** The globals of a process that has just been started (lines 22-25). *)
Definition no_services : Services :=
  {| mail_fetcher := None;
     mail_analyzer := None;
     model_manager := None;
     translation_service := None |}.

(** Lines 317-323: the globals with which [app.run] is called, [None]
    when the process gives up instead. *)
Definition main (imp : Imports) : option Services :=
  let '(initialized, g) := initialize_services imp no_services in
  if initialized then Some g else None.

(** Lines 291-307.  Nothing is caught here: an exception of the status
    query leaves the handler. *)
Definition get_status (py : Builtins) (imp : Imports) (app : Services)
  : result Response :=
  model_status ←
    match model_manager app with
    | Some mm => ModelManager_get_model_status imp mm
    | None =>
        Ok (PDict [ ("logistic_loaded", PBool false);
                    ("svm_loaded", PBool false);
                    ("sentence_transformer_loaded", PBool false) ])
    end;
  Ok (jsonify
        [ ("status", PStr "running");
          ("services",
           PDict [ ("mail_fetcher", PBool (bool_decide (is_Some (mail_fetcher app))));
                   ("mail_analyzer", PBool (bool_decide (is_Some (mail_analyzer app))));
                   ("model_manager", PBool (bool_decide (is_Some (model_manager app)))) ]);
          ("models", model_status);
          ("timestamp", PStr (now_isoformat py)) ]).

(** ** What the further properties observe *)

(** The readiness flag of a service in the answer of [get_status]. *)
Definition service_flag (name : string) (r : Response) : option pyval :=
  match dict_get "services" (body r) with
  | Some services => block_field name services
  | None => None
  end.

(** The ids of page [page], nothing when the pagination raises. *)
Definition page_ids {A : Type} (email_ids : list A) (per_page page : Z)
  : list A :=
  match calculate_pagination email_ids page per_page with
  | Ok pg => page_email_ids pg
  | Raise _ => []
  end.

(** The pages 1 to [total_pages], in order. *)
Definition all_pages {A : Type} (email_ids : list A) (per_page : Z)
  : list (list A) :=
  let total_pages := (Z.of_nat (length email_ids) + per_page - 1) / per_page in
  map (fun k => page_ids email_ids per_page (Z.of_nat k))
      (seq 1 (Z.to_nat total_pages)).

(** The block the analysis returns for a message. *)
Definition analysis_of (py : Builtins) (app : Services) (i : nat)
    (email : RawMessage) (selected_model : string) : pyval :=
  match fst (analyze_message py app i email selected_model []) with
  | Ok block => block
  | Raise _ => PNone
  end.

(** The calls one round of the loop is expected to make: the model layer
    when there is one and the content is not empty, then the translator
    when there is one, on the dictionary with the analysis attached. *)
Definition message_calls (py : Builtins) (app : Services) (start_idx : Z)
    (selected_model : string) (i : nat) (email : RawMessage) : list event :=
  ((if truthy (from_option PStr PNone (msg_content email))
    then match model_manager app with
         | Some _ =>
             [ModelAnalyzeEmail i (default "" (msg_content email))
                (default "" (msg_subject email)) selected_model]
         | None => []
         end
    else [])
   ++ match translation_service app with
      | Some _ =>
          [TranslateEmailContent i
             (dict_set "analysis" (analysis_of py app i email selected_model)
                (email_fields start_idx i email))]
      | None => []
      end)%list.

(** The calls made on the single-email analyzer. *)
Definition is_analyzer_call (ev : event) : bool :=
  match ev with
  | AnalyzeSingleEmail _ _ => true
  | _ => false
  end.

(** A number: what [round(confidence * 100, 2)] and [confidence > 0.8]
    accept. *)
Definition is_number (v : pyval) : bool :=
  match v with
  | PFloat _ | PInt _ | PBool _ => true
  | _ => false
  end.

(** A value [label_mapping.get] can hash. *)
Definition is_hashable (v : pyval) : bool :=
  match v with
  | PList _ | PDict _ => false
  | _ => true
  end.

(** A translator that works on a copy: it returns the dictionary it was
    given as it was. *)
Definition translator_copies (app : Services) : Prop :=
  forall ts i d,
    translation_service app = Some ts ->
    fst (translate_email_content ts i d) = d.

(** ** More sample collaborators *)

(** A server that refuses the login: [connect] returns [False]. *)
Definition refusing_fetcher : MailFetcher :=
  {| connect := Ok false;
     select_mailbox := fun _ => Ok tt;
     search_emails := fun _ _ => Ok ["1"; "2"];
     fetch_multiple_emails := fun ids _ => Ok (map (fun _ => sample_message) ids);
     disconnect := Ok tt |}.

(** Builtins whose [int] also reads ["0"] and ["3"]. *)
Definition digit_builtins : Builtins :=
  {| py_int := fun s =>
       if String.eqb s "0" then Ok 0
       else if String.eqb s "1" then Ok 1
       else if String.eqb s "3" then Ok 3
       else Raise "invalid literal for int() with base 10";
     py_round := fun x _ => x;
     py_repr := fun _ => "";
     now_isoformat := "2024-01-01T00:00:00" |}.

(** A translator that fails on every message. *)
Definition failing_translator : TranslationService :=
  {| translate_email_content := fun _ d => (d, Raise "quota exceeded") |}.

(** A translator that adds one field. *)
Definition subject_translator : TranslationService :=
  {| translate_email_content := fun _ d =>
       (d, Ok [("translated_subject", PStr "Offer")]) |}.

Definition services_with_translator (ts : TranslationService) : Services :=
  {| mail_fetcher := Some working_fetcher;
     mail_analyzer := None;
     model_manager := Some flaky_model;
     translation_service := Some ts |}.

(** A single-email analyzer that answers ['LABEL_1'] with score 0.81. *)
Definition sample_analyzer : MailAnalyzer :=
  {| analyze_single_email := fun _ _ =>
       Ok (PDict [ ("prediction", PStr "LABEL_1");
                   ("confidence", PFloat Float64.lit_0_81) ]) |}.

(** A single-email analyzer whose score is missing. *)
Definition scoreless_analyzer : MailAnalyzer :=
  {| analyze_single_email := fun _ _ =>
       Ok (PDict [ ("prediction", PStr "LABEL_1"); ("confidence", PNone) ]) |}.

Definition services_with_analyzer (ma : MailAnalyzer) : Services :=
  {| mail_fetcher := None;
     mail_analyzer := Some ma;
     model_manager := None;
     translation_service := None |}.

(** [s * n]. *)
Fixpoint string_times (s : string) (n : nat) : string :=
  match n with
  | O => ""
  | S n' => s +:+ string_times s n'
  end.

(** What the SVM of the model layer answers on an ordinary message: the
    token ['normal']. *)
Definition svm_result : pyval :=
  PDict [ ("prediction", PStr "normal");
          ("confidence", PFloat Float64.lit_0_81) ].

Definition svm_model : ModelManager :=
  {| mm_analyze_email := fun _ _ _ _ => Ok svm_result |}.

Definition svm_analyzer : MailAnalyzer :=
  {| analyze_single_email := fun _ _ => Ok svm_result |}.

(** The query [?page=1&per_page=0]. *)
Definition per_page_zero_request : Request :=
  {| args_page := Some "1"; args_per_page := Some "0"; args_model := None |}.

(** Imports with which everything loads. *)
Definition working_imports : Imports :=
  {| MailFetcher_new := Ok working_fetcher;
     MailAnalyzer_new := Ok sample_analyzer;
     MailAnalyzer_load_model := fun _ => Ok (PBool false);
     ModelManager_new := Ok flaky_model;
     ModelManager_load_models := fun _ => Ok (PBool true);
     ModelManager_get_model_status := fun _ =>
       Ok (PDict [ ("logistic_loaded", PBool true);
                   ("svm_loaded", PBool false);
                   ("sentence_transformer_loaded", PBool true) ]);
     get_translation_service := Ok (Some subject_translator) |}.

(** Imports whose model manager cannot be constructed. *)
Definition broken_imports : Imports :=
  {| MailFetcher_new := Ok working_fetcher;
     MailAnalyzer_new := Ok sample_analyzer;
     MailAnalyzer_load_model := fun _ => Ok (PBool true);
     ModelManager_new := Raise "model files not found";
     ModelManager_load_models := fun _ => Ok (PBool true);
     ModelManager_get_model_status := fun _ => Ok (PDict []);
     get_translation_service := Ok None |}.

(** ** Proof automation *)

Ltac compare_cases :=
  repeat match goal with
    | |- context [Pos.compare_cont Eq ?a ?b] =>
        change (Pos.compare_cont Eq a b) with (Pos.compare a b)
    | |- context [Z.compare ?a ?b] => destruct (Z.compare_spec a b)
    | |- context [Pos.compare ?a ?b] => destruct (Pos.compare_spec a b)
    end.

(** Unfold the plumbing of [io] and [result]. *)
Ltac error_branch :=
  do 2 eexists; split; [reflexivity|]; left; eexists; split;
  [reflexivity | unfold count_disconnect; simpl; lia].

(** A branch whose answer is not 200. *)
Ltac other_status :=
  let H := fresh in
  let Hs := fresh in
  intros H Hs; injection H as <- _; simpl in Hs; discriminate Hs.

Ltac exists_error_answer :=
  do 2 eexists;
  (split; [first [ rewrite app_nil_r; reflexivity | reflexivity ]|]);
  simpl;
  (split; [auto|]);
  (split; [intros _; eexists; reflexivity|]);
  split; [|split].

(** A branch of [analyze_email] that answers an error, before and after
    the analyzer was called. *)
Ltac quiet_error :=
  exists_error_answer;
  [left; reflexivity | reflexivity | discriminate].

Ltac called_error :=
  exists_error_answer;
  [right; eauto | discriminate | discriminate].

(** Choose the disjunct that names the text of an error. *)
Ltac pick_text :=
  first [ reflexivity
        | eexists; reflexivity
        | split; [assumption | reflexivity]
        | left; pick_text
        | right; pick_text ].

(** A branch whose answer is read through its ['error'] text. *)
Ltac error_text :=
  let H := fresh in
  let Hb := fresh in
  intros H Hb; injection H as <- _; simpl in Hb;
  first [ discriminate Hb | injection Hb as <-; pick_text ].

(** Rewrite with the outcome of one step and reduce the match on it. *)
Ltac io_step H := rewrite H; cbn [negb fst snd]; cbv beta iota.

Ltac io_unfold :=
  unfold try_except, call, lift, run, mbind, mret, io_bind, io_ret,
    result_bind, result_ret in *.

(** * Properties *)

(** ** Label normalizer *)

Lemma label_get_absent (tbl : gmap string string) (t : string) :
  tbl !! t = None -> label_get tbl t = t.
Proof. intros H. unfold label_get. rewrite H. reflexivity. Qed.

(** A table none of whose labels is itself a key normalizes in one step. *)
Lemma label_get_idempotent (tbl : gmap string string) :
  map_Forall (fun _ v => tbl !! v = None) tbl ->
  forall x, label_get tbl (label_get tbl x) = label_get tbl x.
Proof.
  intros Hvals x. unfold label_get.
  destruct (tbl !! x) as [v|] eqn:Hx; simpl.
  - rewrite (Hvals x v Hx). reflexivity.
  - rewrite Hx. reflexivity.
Qed.

Lemma fetch_labels_are_not_keys :
  map_Forall (fun _ v => label_mapping_fetch !! v = None) label_mapping_fetch.
Proof. apply (bool_decide_unpack _). vm_compute. exact I. Qed.

Lemma analyze_labels_are_not_keys :
  map_Forall (fun _ v => label_mapping_analyze !! v = None) label_mapping_analyze.
Proof. apply (bool_decide_unpack _). vm_compute. exact I. Qed.

(** The table of [fetch_emails] is the table of [analyze_email] with two
    more keys. *)
Lemma label_mapping_fetch_extends :
  label_mapping_fetch =
  <["normal" := "Normal"]> (<["anormal" := "Anormal"]> label_mapping_analyze).
Proof. apply (bool_decide_unpack _). vm_compute. exact I. Qed.

(** Off the two keys that only [fetch_emails] has, the tables agree. *)
Lemma label_mappings_agree (k : string) :
  k <> "normal" -> k <> "anormal" ->
  label_mapping_fetch !! k = label_mapping_analyze !! k.
Proof.
  intros Hn Ha. rewrite label_mapping_fetch_extends.
  rewrite lookup_insert_ne by (intros E; apply Hn; symmetry; exact E).
  rewrite lookup_insert_ne by (intros E; apply Ha; symmetry; exact E).
  reflexivity.
Qed.

(** C7: the label normalizer of either endpoint is total and idempotent,
    [normalize (normalize x) = normalize x] for every raw token [x], and a
    token absent from the mapping table is returned unchanged; looking a
    string token up never raises. *)
Theorem label_normalizer_idempotent_passthrough :
  forall x : string,
    normalize_fetch (normalize_fetch x) = normalize_fetch x /\
    normalize_analyze (normalize_analyze x) = normalize_analyze x /\
    (label_mapping_fetch !! x = None -> normalize_fetch x = x) /\
    (label_mapping_analyze !! x = None -> normalize_analyze x = x) /\
    label_mapping_get label_mapping_fetch (PStr x) = Ok (PStr (normalize_fetch x)) /\
    label_mapping_get label_mapping_analyze (PStr x)
      = Ok (PStr (normalize_analyze x)).
Proof.
  intros x. unfold normalize_fetch, normalize_analyze.
  split; [apply label_get_idempotent, fetch_labels_are_not_keys|].
  split; [apply label_get_idempotent, analyze_labels_are_not_keys|].
  split; [apply label_get_absent|].
  split; [apply label_get_absent|].
  split; reflexivity.
Qed.

Lemma label_normalizer_idempotent_passthrough_witness :
  normalize_fetch "LABEL_7" = "LABEL_7" /\ normalize_analyze "normal" = "normal".
Proof.
  split.
  - destruct (label_normalizer_idempotent_passthrough "LABEL_7")
      as (_ & _ & Hfetch & _).
    apply Hfetch. vm_compute. reflexivity.
  - destruct (label_normalizer_idempotent_passthrough "normal")
      as (_ & _ & _ & Hanalyze & _).
    apply Hanalyze. vm_compute. reflexivity.
Defined.

(** The token ['normal'] is mapped to ['Normal'] by [fetch_emails] and is
    left as it is by [analyze_email]. *)
Lemma normalizers_disagree_on_normal :
  normalize_fetch "normal" = "Normal" /\
  normalize_analyze "normal" = "normal" /\
  ~ (forall x : string, normalize_fetch x = normalize_analyze x).
Proof.
  assert (Hf : normalize_fetch "normal" = "Normal") by (vm_compute; reflexivity).
  assert (Ha : normalize_analyze "normal" = "normal") by (vm_compute; reflexivity).
  split; [exact Hf|]. split; [exact Ha|].
  intros Hall. specialize (Hall "normal"). rewrite Hf, Ha in Hall.
  discriminate Hall.
Qed.

(** How far the two tables agree: on every raw prediction token other
    than ['normal'] and ['anormal'] (and on every prediction that is not a
    string) the two endpoints give the same label; on those two tokens
    [fetch_emails] answers ['Normal'] and ['Anormal'], and [analyze_email]
    returns the token itself. *)
Lemma normalizers_agree_off_normal_anormal :
  (forall x : string,
     x <> "normal" -> x <> "anormal" ->
     normalize_fetch x = normalize_analyze x) /\
  (forall v : pyval,
     v <> PStr "normal" -> v <> PStr "anormal" ->
     label_mapping_get label_mapping_fetch v
       = label_mapping_get label_mapping_analyze v) /\
  normalize_fetch "normal" = "Normal" /\
  normalize_analyze "normal" = "normal" /\
  normalize_fetch "anormal" = "Anormal" /\
  normalize_analyze "anormal" = "anormal".
Proof.
  assert (Hstr : forall x : string,
             x <> "normal" -> x <> "anormal" ->
             normalize_fetch x = normalize_analyze x).
  { intros x Hn Ha. unfold normalize_fetch, normalize_analyze, label_get.
    rewrite (label_mappings_agree x Hn Ha). reflexivity. }
  split; [exact Hstr|]. split.
  - intros v Hn Ha. destruct v as [| | | |s| |]; try reflexivity.
    simpl. do 2 f_equal. apply Hstr; congruence.
  - repeat split; vm_compute; reflexivity.
Qed.

Lemma normalizers_agree_off_normal_anormal_witness :
  normalize_fetch "LABEL_3" = normalize_analyze "LABEL_3".
Proof.
  apply (proj1 normalizers_agree_off_normal_anormal "LABEL_3"); discriminate.
Defined.

(** ** Confidence level *)

Lemma SFcompare_antisym (s t : spec_float) :
  SFcompare t s = option_map CompOpp (SFcompare s t).
Proof.
  destruct s as [[]|[]| |[] m e], t as [[]|[]| |[] m' e'];
    simpl; try reflexivity;
    rewrite (Z.compare_antisym e e');
    destruct (e ?= e'); simpl; try reflexivity;
    rewrite (Pos.compare_cont_antisym m m' Eq); reflexivity.
Qed.

(** Two numbers are ordered one way or the other: [t < s] fails exactly
    when [s <= t]. *)
Lemma SFltb_false_iff_leb (s t : spec_float) :
  Float64.is_nan s = false -> Float64.is_nan t = false ->
  SFltb t s = false <-> SFleb s t = true.
Proof.
  intros Hs Ht. unfold SFltb, SFleb. rewrite (SFcompare_antisym s t).
  destruct (SFcompare s t) as [[]|] eqn:Hc; simpl; try (split; congruence).
  destruct s, t; simpl in *; discriminate.
Qed.

Lemma SFleb_trans (s a b : spec_float) :
  SFleb s a = true -> SFleb a b = true -> SFleb s b = true.
Proof.
  unfold SFleb.
  destruct s as [[]|[]| |[] m e], a as [[]|[]| |[] m' e'],
    b as [[]|[]| |[] m'' e'']; simpl; try (intros; congruence);
    compare_cases; simpl; intros; try congruence; lia.
Qed.

Lemma SFleb_0_5_leb_0_8 (s : spec_float) :
  SFleb s Float64.lit_0_5 = true -> SFleb s Float64.lit_0_8 = true.
Proof.
  intros H. apply (SFleb_trans s Float64.lit_0_5); [exact H|].
  vm_compute. reflexivity.
Qed.

Lemma confidence_level_float (s : spec_float) :
  confidence_level (PFloat s) =
  Ok (if Float64.ltb Float64.lit_0_8 s then "Yüksek"
      else if Float64.ltb Float64.lit_0_5 s then "Orta" else "Düşük").
Proof.
  unfold confidence_level, py_gt, mbind, result_bind.
  destruct (Float64.ltb Float64.lit_0_8 s);
    [|destruct (Float64.ltb Float64.lit_0_5 s)]; reflexivity.
Qed.

(** C6: on every confidence score [s] (a float that is a number) the
    confidence classifier answers ['Yüksek'] iff [s > 0.8], ['Orta'] iff
    [0.5 < s <= 0.8] and ['Düşük'] iff [s <= 0.5], the comparisons being
    those of binary64 against the literals [0.8] and [0.5]; it answers on
    every float; and the four sample scores 0.81, 0.8, 0.6 and 0.50 (the
    doubles nearest to these decimals) are classified as the specification
    lists them. *)
Theorem confidence_level_tiers :
  (forall s : spec_float,
     Float64.is_nan s = false ->
     (confidence_level (PFloat s) = Ok "Yüksek"
        <-> Float64.ltb Float64.lit_0_8 s = true) /\
     (confidence_level (PFloat s) = Ok "Orta"
        <-> Float64.ltb Float64.lit_0_5 s = true
            /\ Float64.leb s Float64.lit_0_8 = true) /\
     (confidence_level (PFloat s) = Ok "Düşük"
        <-> Float64.leb s Float64.lit_0_5 = true)) /\
  (forall s : spec_float,
     confidence_level (PFloat s) = Ok "Yüksek" \/
     confidence_level (PFloat s) = Ok "Orta" \/
     confidence_level (PFloat s) = Ok "Düşük") /\
  (confidence_level (PFloat Float64.lit_0_81) = Ok "Yüksek" /\
   confidence_level (PFloat Float64.lit_0_8) = Ok "Orta" /\
   confidence_level (PFloat Float64.lit_0_6) = Ok "Orta" /\
   confidence_level (PFloat Float64.lit_0_5) = Ok "Düşük") /\
  (Float64.nearest_to Float64.lit_0_81 81 100 = true /\
   Float64.nearest_to Float64.lit_0_8 8 10 = true /\
   Float64.nearest_to Float64.lit_0_6 6 10 = true /\
   Float64.nearest_to Float64.lit_0_5 50 100 = true).
Proof.
  split; [|split; [|split]].
  - intros s Hs. rewrite confidence_level_float.
    pose proof (SFltb_false_iff_leb s Float64.lit_0_8 Hs eq_refl) as H8.
    pose proof (SFltb_false_iff_leb s Float64.lit_0_5 Hs eq_refl) as H5.
    pose proof (SFleb_0_5_leb_0_8 s) as H58.
    unfold Float64.ltb, Float64.leb in *.
    destruct (SFltb Float64.lit_0_8 s), (SFltb Float64.lit_0_5 s),
      (SFleb s Float64.lit_0_8), (SFleb s Float64.lit_0_5);
      intuition congruence.
  - intros s. rewrite confidence_level_float.
    destruct (Float64.ltb Float64.lit_0_8 s);
      [|destruct (Float64.ltb Float64.lit_0_5 s)]; auto.
  - repeat split; vm_compute; reflexivity.
  - repeat split; vm_compute; reflexivity.
Qed.

Lemma confidence_level_tiers_witness :
  confidence_level (PFloat Float64.lit_0_6) = Ok "Orta".
Proof.
  destruct (proj1 confidence_level_tiers Float64.lit_0_6 eq_refl)
    as (_ & Horta & _).
  apply Horta. split; vm_compute; reflexivity.
Defined.

(** A score that is not a number compares false with everything and so
    falls through to the last branch. *)
Lemma confidence_level_nan :
  confidence_level (PFloat S754_nan) = Ok "Düşük" /\
  Float64.leb S754_nan Float64.lit_0_5 = false.
Proof. split; reflexivity. Qed.

(** ** Pagination *)

(** With [0 <= start <= stop] the slice is "drop [start], take
    [stop - start]"; the clamping to the length is the one of [take] and
    [drop]. *)
Lemma py_slice_nonneg {A : Type} (l : list A) (start stop : Z) :
  0 <= start -> start <= stop ->
  py_slice l start stop
  = take (Z.to_nat (stop - start)) (drop (Z.to_nat start) l).
Proof.
  intros Hstart Hstop. unfold py_slice, slice_index.
  destruct (Z.ltb_spec start 0) as [?|_]; [lia|].
  destruct (Z.ltb_spec stop 0) as [?|_]; [lia|].
  destruct (Z_lt_le_dec start (Z.of_nat (length l))) as [Hin|Hout].
  - rewrite (Z.min_l start) by lia.
    destruct (Z_lt_le_dec stop (Z.of_nat (length l))) as [Hs|Hs].
    + rewrite (Z.min_l stop) by lia. reflexivity.
    + rewrite (Z.min_r stop) by lia.
      rewrite !take_ge; [reflexivity| |]; rewrite length_drop; lia.
  - rewrite (Z.min_r start) by lia.
    rewrite !(drop_ge l) by lia.
    rewrite !take_nil. reflexivity.
Qed.

Lemma floordiv_ceiling (t per_page : Z) :
  1 <= per_page ->
  is_ceil_div t per_page ((t + per_page - 1) / per_page).
Proof.
  intros Hpp. unfold is_ceil_div.
  pose proof (Z.mul_div_le (t + per_page - 1) per_page ltac:(lia)) as Hle.
  pose proof (Z.mul_succ_div_gt (t + per_page - 1) per_page ltac:(lia)) as Hgt.
  set (q := (t + per_page - 1) / per_page) in *.
  split; nia.
Qed.

(** C2: for every id sequence of length [T] and all [page >= 1],
    [per_page >= 1], the pagination step succeeds and selects the slice
    [(page-1)*per_page .. (page-1)*per_page + per_page) of the reversed
    sequence, clamped to its bounds (a page past the end selects nothing);
    [total_pages] is [ceil(T / per_page)] and the selection has
    [min(per_page, max(0, T - (page-1)*per_page))] ids. *)
Theorem pagination_selects_page {A : Type} (email_ids : list A)
    (page per_page : Z) :
  (1 <= length email_ids)%nat -> 1 <= page -> 1 <= per_page ->
  exists pg : Pagination A,
    calculate_pagination email_ids page per_page = Ok pg /\
    page_email_ids pg
      = take (Z.to_nat per_page)
          (drop (Z.to_nat ((page - 1) * per_page)) (rev email_ids)) /\
    (Z.of_nat (length email_ids) <= (page - 1) * per_page ->
     page_email_ids pg = []) /\
    total_emails pg = Z.of_nat (length email_ids) /\
    is_ceil_div (Z.of_nat (length email_ids)) per_page (total_pages pg) /\
    Z.of_nat (length (page_email_ids pg))
      = Z.min per_page
          (Z.max 0 (Z.of_nat (length email_ids) - (page - 1) * per_page)).
Proof.
  intros _ Hpage Hpp.
  unfold calculate_pagination, py_floordiv, mbind, result_bind.
  destruct (Z.eqb_spec per_page 0) as [?|_]; [lia|].
  eexists. split; [reflexivity|]. simpl.
  assert (Hstart : 0 <= (page - 1) * per_page) by nia.
  set (start := (page - 1) * per_page) in *.
  rewrite py_slice_nonneg by lia.
  replace (start + per_page - start) with per_page by lia.
  assert (Hlen : length (rev email_ids) = length email_ids)
    by apply length_rev.
  repeat split.
  - intros Hpast. rewrite drop_ge by lia. apply take_nil.
  - apply floordiv_ceiling. exact Hpp.
  - apply floordiv_ceiling. exact Hpp.
  - rewrite length_take, length_drop, Hlen. lia.
Qed.

Lemma pagination_selects_page_witness :
  exists pg : Pagination Z,
    calculate_pagination [1; 2; 3; 4; 5; 6; 7; 8; 9; 10] 4 3 = Ok pg /\
    page_email_ids pg = [1] /\ total_pages pg = 4.
Proof.
  destruct (pagination_selects_page [1; 2; 3; 4; 5; 6; 7; 8; 9; 10] 4 3)
    as (pg & Hpg & Hsel & _ & _ & Hceil & _); [simpl; lia | lia | lia |].
  exists pg. split; [exact Hpg|]. split; [exact Hsel|].
  unfold is_ceil_div in Hceil. simpl in Hceil. lia.
Defined.

(** The two samples of the specification: of ten ids, page 1 of size 3
    holds the three newest, newest first, and page 4 holds one. *)
Lemma pagination_samples :
  page_email_ids <$> calculate_pagination [1; 2; 3; 4; 5; 6; 7; 8; 9; 10] 1 3
    = Ok [10; 9; 8] /\
  page_email_ids <$> calculate_pagination [1; 2; 3; 4; 5; 6; 7; 8; 9; 10] 4 3
    = Ok [1].
Proof. split; vm_compute; reflexivity. Qed.

(** ** Dictionaries *)

Lemma dict_get_set_eq (k : string) (v : pyval) (d : pydict) :
  dict_get k (dict_set k v d) = Some v.
Proof.
  induction d as [|[k' v'] d IH]; simpl.
  - rewrite String.eqb_refl. reflexivity.
  - destruct (String.eqb k k') eqn:E; simpl; rewrite ?E, ?String.eqb_refl;
      [reflexivity | exact IH].
Qed.

Lemma dict_get_set_ne (k k' : string) (v : pyval) (d : pydict) :
  k <> k' -> dict_get k (dict_set k' v d) = dict_get k d.
Proof.
  intros Hne. apply String.eqb_neq in Hne.
  induction d as [|[k'' v''] d IH]; simpl.
  - rewrite Hne. reflexivity.
  - destruct (String.eqb k' k'') eqn:E; simpl.
    + apply String.eqb_eq in E. subst k''. rewrite Hne. reflexivity.
    + rewrite IH. reflexivity.
Qed.

(** An overlay that does not bind [k] leaves the binding of [k] alone. *)
Lemma dict_get_update (k : string) (o d : pydict) :
  dict_get k o = None -> dict_get k (dict_update d o) = dict_get k d.
Proof.
  unfold dict_update. revert d.
  induction o as [|[k' v'] o IH]; intros d Ho; simpl in *; [reflexivity|].
  destruct (String.eqb k k') eqn:E; [discriminate|].
  rewrite (IH _ Ho). apply dict_get_set_ne. apply String.eqb_neq. exact E.
Qed.

(** ** One message *)

Section Message.

Context (py : Builtins) (app : Services).

(** The analysis of a message never raises, and it calls nothing but, at
    most once, the model layer, for this message. *)
Lemma analyze_message_returns (i : nat) (email : RawMessage)
    (selected_model : string) (tr : list event) :
  exists block evs,
    analyze_message py app i email selected_model tr
      = (Ok block, (tr ++ evs)%list) /\
    (evs = [] \/
     evs = [ModelAnalyzeEmail i (default "" (msg_content email))
               (default "" (msg_subject email)) selected_model]) /\
    fst (analyze_message py app i email selected_model []) = Ok block.
Proof.
  unfold analyze_message. io_unfold.
  destruct (truthy _).
  - destruct (model_manager app) as [mm|]; simpl.
    + destruct (mm_analyze_email mm i _ _ selected_model) as [v|e]; simpl.
      * destruct (truthy v); [destruct (classified_analysis py v)|];
          do 2 eexists; (split; [reflexivity|]); split; auto.
      * do 2 eexists; (split; [reflexivity|]); split; auto.
    + exists (fallback_analysis "Analiz Edilemedi" "UNKNOWN"), [].
      rewrite app_nil_r. auto.
  - exists (fallback_analysis "Analiz Edilemedi" "NO_ANALYZER"), [].
    rewrite app_nil_r. auto.
Qed.

(** The translation step never raises, and it calls nothing but the
    translator, once, for this message. *)
Lemma translate_message_returns (i : nat) (email_data : pydict)
    (tr : list event) :
  exists d evs,
    translate_message app i email_data tr = (Ok d, (tr ++ evs)%list) /\
    (evs = [] \/ evs = [TranslateEmailContent i email_data]) /\
    forall k, translator_keeps k app -> dict_get k d = dict_get k email_data.
Proof.
  unfold translate_message.
  destruct (translation_service app) as [ts|] eqn:Hts.
  - destruct (translate_email_content ts i email_data) as [d1 outcome] eqn:Hcall.
    io_unfold. destruct outcome as [o|e]; simpl.
    + do 2 eexists. split; [reflexivity|]. split; [auto|].
      intros k Hk. destruct (Hk ts i email_data Hts) as [Hd Ho].
      rewrite Hcall in Hd, Ho. simpl in Hd, Ho.
      rewrite dict_get_update by (apply Ho; reflexivity). exact Hd.
    + do 2 eexists. split; [reflexivity|]. split; [auto|].
      intros k Hk. destruct (Hk ts i email_data Hts) as [Hd _].
      rewrite Hcall in Hd. exact Hd.
  - exists email_data, []. io_unfold. rewrite app_nil_r. auto.
Qed.

(** One round of the loop never raises; what it calls, it calls for its
    own message; and a key the translator leaves alone is bound as in
    [email_fields] with the analysis block attached. *)
Lemma format_email_returns (start_idx : Z) (selected_model : string)
    (i : nat) (email : RawMessage) (tr : list event) :
  exists d evs block,
    format_email py app start_idx selected_model i email tr
      = (Ok d, (tr ++ evs)%list) /\
    Forall (fun ev => is_call_for i ev = true) evs /\
    fst (analyze_message py app i email selected_model []) = Ok block /\
    (forall k, translator_keeps k app ->
       dict_get k d
       = dict_get k (dict_set "analysis" block (email_fields start_idx i email))) /\
    (truthy (from_option PStr PNone (msg_content email)) = false ->
     Forall (fun ev => is_model_call ev = false) evs).
Proof.
  destruct (analyze_message_returns i email selected_model tr)
    as (block & evs1 & Hrun & Hevs1 & Hblock).
  destruct (translate_message_returns i
              (dict_set "analysis" block (email_fields start_idx i email))
              (tr ++ evs1)%list)
    as (d & evs2 & Htr & Hevs2 & Hkeys).
  exists d, (evs1 ++ evs2)%list, block.
  split; [|split; [|split; [exact Hblock|split; [exact Hkeys|]]]].
  - unfold format_email. unfold mbind at 1. unfold io_bind.
    rewrite Hrun. rewrite Htr. rewrite app_assoc. reflexivity.
  - apply Forall_app. split.
    + destruct Hevs1 as [->| ->]; repeat constructor.
      simpl. apply Nat.eqb_refl.
    + destruct Hevs2 as [->| ->]; repeat constructor.
      simpl. apply Nat.eqb_refl.
  - intros Hempty. apply Forall_app. split.
    + unfold analyze_message in Hrun. rewrite Hempty in Hrun.
      io_unfold. injection Hrun as _ Htrace.
      assert (evs1 = []) as ->.
      { apply (app_inv_head tr). rewrite app_nil_r. symmetry. exact Htrace. }
      constructor.
    + destruct Hevs2 as [->| ->]; repeat constructor.
Qed.

Lemma is_call_for_inj (a b : nat) (ev : event) :
  is_call_for a ev = true -> is_call_for b ev = true -> a = b.
Proof.
  destruct ev; simpl; try discriminate;
    intros Ha Hb; apply Nat.eqb_eq in Ha, Hb; congruence.
Qed.

(** The loop never raises and keeps one entry per fetched message, in
    order; every call it makes is made for one of its messages. *)
Lemma format_emails_returns (start_idx : Z) (selected_model : string)
    (emails : list RawMessage) :
  forall (i : nat) (tr : list event),
  exists formatted evs,
    format_emails py app start_idx selected_model i emails tr
      = (Ok formatted, (tr ++ evs)%list) /\
    length formatted = length emails /\
    Forall (fun ev => exists j, is_call_for (i + j) ev = true) evs /\
    forall (j : nat) (email : RawMessage),
      emails !! j = Some email ->
      exists d block,
        formatted !! j = Some d /\
        fst (analyze_message py app (i + j) email selected_model []) = Ok block /\
        (forall k, translator_keeps k app ->
           dict_get k d
           = dict_get k (dict_set "analysis" block
                           (email_fields start_idx (i + j) email))) /\
        (truthy (from_option PStr PNone (msg_content email)) = false ->
         Forall (fun ev => is_call_for (i + j) ev = true ->
                           is_model_call ev = false) evs).
Proof.
  induction emails as [|email rest IH]; intros i tr.
  - exists [], []. simpl. io_unfold. rewrite app_nil_r.
    repeat split; try constructor. intros j e Hj. discriminate Hj.
  - destruct (format_email_returns start_idx selected_model i email tr)
      as (d & evs1 & block & Hrun & Hfor & Hblock & Hkeys & Hquiet).
    destruct (IH (S i) (tr ++ evs1)%list)
      as (formatted & evs2 & Hrest & Hlen & Hcalls & Hentries).
    exists (d :: formatted), (evs1 ++ evs2)%list.
    split; [|split; [|split]].
    + simpl. unfold mbind at 1. unfold io_bind. rewrite Hrun.
      unfold mbind at 1. unfold io_bind. rewrite Hrest.
      rewrite app_assoc. reflexivity.
    + simpl. rewrite Hlen. reflexivity.
    + apply Forall_app. split.
      * eapply Forall_impl; [exact Hfor|].
        intros ev Hev. exists 0%nat. rewrite Nat.add_0_r. exact Hev.
      * eapply Forall_impl; [exact Hcalls|].
        intros ev [j Hev]. exists (S j).
        replace (i + S j)%nat with (S i + j)%nat by lia. exact Hev.
    + intros [|j] e Hj; simpl in Hj.
      * injection Hj as <-. rewrite Nat.add_0_r.
        exists d, block. split; [reflexivity|].
        split; [exact Hblock|]. split; [exact Hkeys|].
        intros Hempty. apply Forall_app. split.
        -- eapply Forall_impl; [exact (Hquiet Hempty)|]. auto.
        -- eapply Forall_impl; [exact Hcalls|].
           intros ev [j Hev] Hi.
           pose proof (is_call_for_inj _ _ _ Hev Hi). lia.
      * destruct (Hentries j e Hj) as (d' & block' & Hd' & Hb' & Hk' & Hq').
        replace (i + S j)%nat with (S i + j)%nat by lia.
        exists d', block'. split; [exact Hd'|].
        split; [exact Hb'|]. split; [exact Hk'|].
        intros Hempty. apply Forall_app. split; [|exact (Hq' Hempty)].
        eapply Forall_impl; [exact Hfor|].
        intros ev Hev Hi.
        pose proof (is_call_for_inj _ _ _ Hev Hi). lia.
Qed.

Lemma empty_content_not_truthy (email : RawMessage) :
  msg_content email = None \/ msg_content email = Some "" ->
  truthy (from_option PStr PNone (msg_content email)) = false.
Proof. intros [-> | ->]; reflexivity. Qed.

Lemma py_eq_str_iff (v : pyval) (s : string) :
  py_eq_str v s = true <-> v = PStr s.
Proof.
  destruct v; simpl; try (split; [discriminate|congruence]).
  rewrite String.eqb_eq. split; congruence.
Qed.

(** The block built from a result of the model layer. *)
Lemma classified_analysis_block (analysis_result block : pyval) :
  classified_analysis py analysis_result = Ok block ->
  exists status confidence prediction,
    block = PDict [ ("status", status);
                    ("is_normal", PBool (py_eq_str status "Normal"));
                    ("confidence", confidence);
                    ("prediction", prediction) ] /\
    label_mapping_get label_mapping_fetch prediction = Ok status.
Proof.
  unfold classified_analysis, mbind, result_bind.
  destruct (py_get analysis_result "prediction" _) as [prediction|]; [|discriminate].
  destruct (py_get analysis_result "confidence" _) as [confidence|]; [|discriminate].
  destruct (label_mapping_get label_mapping_fetch prediction) as [status|]
    eqn:Hstatus; [|discriminate].
  destruct (round_percent py confidence) as [rounded|]; [|discriminate].
  intros [= <-]. exists status, rounded, prediction.
  split; [reflexivity | exact Hstatus].
Qed.

(** Every block is one of the three fallback blocks or was built from a
    result of the model layer. *)
Lemma analyze_message_block (i : nat) (email : RawMessage)
    (selected_model : string) (tr : list event) (block : pyval) :
  fst (analyze_message py app i email selected_model tr) = Ok block ->
  is_fallback block \/
  exists analysis_result, classified_analysis py analysis_result = Ok block.
Proof.
  unfold analyze_message, is_fallback. io_unfold.
  destruct (truthy _); [|simpl; intros [= <-]; auto].
  destruct (model_manager app) as [mm|]; simpl;
    [|intros [= <-]; auto].
  destruct (mm_analyze_email mm i _ _ selected_model) as [v|e]; simpl;
    [|intros [= <-]; auto].
  destruct (truthy v); simpl; [|intros [= <-]; auto].
  destruct (classified_analysis py v) as [b|e] eqn:Hb; simpl;
    intros [= <-]; eauto.
Qed.

(** C4: a fetched message whose content is empty or absent gets, for
    every model selector, exactly the block [{status: 'Analiz Edilemedi',
    is_normal: null, confidence: 0, prediction: 'NO_ANALYZER'}], and no
    call is made for it on the model layer: the analysis makes no call at
    all, and in the trace of the whole loop no model call carries the
    index of this message; the entry of the message in the result holds
    that block unless the translator rebinds ['analysis']. *)
Theorem empty_content_is_not_analyzed (i : nat) (email : RawMessage)
    (selected_model : string) (tr : list event) :
  msg_content email = None \/ msg_content email = Some "" ->
  analyze_message py app i email selected_model tr
  = (Ok (PDict [ ("status", PStr "Analiz Edilemedi");
                 ("is_normal", PNone);
                 ("confidence", PInt 0);
                 ("prediction", PStr "NO_ANALYZER") ]), tr) /\
  forall (start_idx : Z) (emails : list RawMessage) (j : nat),
    emails !! j = Some email ->
    exists formatted evs d,
      format_emails py app start_idx selected_model 0 emails tr
        = (Ok formatted, (tr ++ evs)%list) /\
      formatted !! j = Some d /\
      (translator_keeps "analysis" app ->
       dict_get "analysis" d
       = Some (PDict [ ("status", PStr "Analiz Edilemedi");
                       ("is_normal", PNone);
                       ("confidence", PInt 0);
                       ("prediction", PStr "NO_ANALYZER") ])) /\
      Forall (fun ev => is_call_for j ev = true -> is_model_call ev = false) evs.
Proof.
  intros Hcontent. pose proof (empty_content_not_truthy email Hcontent) as Hempty.
  assert (Hblock : forall i' tr',
             analyze_message py app i' email selected_model tr'
             = (Ok (fallback_analysis "Analiz Edilemedi" "NO_ANALYZER"), tr')).
  { intros i' tr'. unfold analyze_message. rewrite Hempty. reflexivity. }
  split; [apply Hblock|].
  intros start_idx emails j Hj.
  destruct (format_emails_returns start_idx selected_model emails 0%nat tr)
    as (formatted & evs & Hloop & _ & _ & Hentries).
  destruct (Hentries j email Hj) as (d & block & Hd & Hb & Hkeys & Hquiet).
  exists formatted, evs, d. change (0 + j)%nat with j in *.
  split; [exact Hloop|]. split; [exact Hd|]. split; [|exact (Hquiet Hempty)].
  intros Hkeep. rewrite (Hkeys "analysis" Hkeep), dict_get_set_eq.
  rewrite Hblock in Hb. injection Hb as <-. reflexivity.
Qed.

End Message.

(** ** The handler of GET /api/fetch-emails *)

Lemma count_disconnect_app (tr evs : list event) :
  count_disconnect (tr ++ evs) = (count_disconnect tr + count_disconnect evs)%nat.
Proof.
  unfold count_disconnect. rewrite List.filter_app. apply length_app.
Qed.

(** The loop does not touch the connection: its calls are those of the
    model layer and of the translator. *)
Lemma count_disconnect_calls (tr evs : list event) (i : nat) :
  Forall (fun ev => exists j, is_call_for (i + j) ev = true) evs ->
  count_disconnect (tr ++ evs) = count_disconnect tr.
Proof.
  intros Hcalls. rewrite count_disconnect_app.
  assert (Hzero : count_disconnect evs = 0%nat).
  { unfold count_disconnect.
    induction Hcalls as [|ev evs [j Hev] _ IH]; [reflexivity|].
    destruct ev; simpl in *; try discriminate; exact IH. }
  lia.
Qed.

Section FetchEmails.

Context (py : Builtins) (app : Services).

(** The handler answers every request, in one of three ways: an error
    envelope with status 500, the empty envelope, or a page. *)
Lemma fetch_emails_cases (request : Request) :
  exists resp tr,
    run (fetch_emails py app request) = (Ok resp, tr) /\
    ((exists msg,
        resp = jsonify_status [("error", PStr msg)] 500 /\
        (count_disconnect tr <= 1)%nat) \/
     (exists page per_page,
        resp = jsonify [ ("emails", PList []);
                         ("total_emails", PInt 0);
                         ("current_page", PInt page);
                         ("total_pages", PInt 0);
                         ("per_page", PInt per_page);
                         ("message", PStr "No emails found") ] /\
        tr = [Connect; SelectMailbox "INBOX"; SearchEmails "ALL" 30; Disconnect]) \/
     (exists mf page per_page email_ids pg emails formatted evs,
        mail_fetcher app = Some mf /\
        search_emails mf "ALL" 30 = Ok email_ids /\
        email_ids <> [] /\
        calculate_pagination email_ids page per_page = Ok pg /\
        fetch_multiple_emails mf (page_email_ids pg) per_page = Ok emails /\
        format_emails py app (start_idx pg)
          (default "transformer" (args_model request)) 0 emails
          (page_calls (page_email_ids pg) per_page)
        = (Ok formatted, (page_calls (page_email_ids pg) per_page ++ evs)%list) /\
        resp = jsonify
                 [ ("emails", PList (map PDict formatted));
                   ("total_emails", PInt (total_emails pg));
                   ("current_page", PInt page);
                   ("total_pages", PInt (total_pages pg));
                   ("per_page", PInt per_page);
                   ("start_index", PInt (start_idx pg + 1));
                   ("end_index",
                    PInt (Z.min (start_idx pg + per_page) (total_emails pg)));
                   ("message",
                    PStr (pretty (length formatted)
                          +:+ " emails fetched and analyzed successfully")) ] /\
        tr = (page_calls (page_email_ids pg) per_page ++ evs)%list /\
        count_disconnect tr = 1%nat)).
Proof.
  unfold fetch_emails. io_unfold.
  destruct (mail_fetcher app) as [mf|] eqn:Hmf; [|error_branch].
  destruct (int_arg py (args_page request) 1) as [page|?]; [|error_branch].
  destruct (int_arg py (args_per_page request) 10) as [per_page|?];
    [|error_branch].
  destruct (connect mf) as [[|]|?]; simpl; [|error_branch|error_branch].
  destruct (select_mailbox mf "INBOX") as [[]|?]; simpl; [|error_branch].
  destruct (search_emails mf "ALL" 30) as [email_ids|?] eqn:Hsearch; simpl;
    [|error_branch].
  destruct email_ids as [|email_id rest].
  { destruct (disconnect mf) as [[]|?]; simpl; [|error_branch].
    do 2 eexists. split; [reflexivity|]. right; left.
    do 2 eexists. split; reflexivity. }
  destruct (calculate_pagination (email_id :: rest) page per_page)
    as [pg|?] eqn:Hpg; simpl; [|error_branch].
  destruct (fetch_multiple_emails mf (page_email_ids pg) per_page)
    as [emails|?] eqn:Hfetch; simpl; [|error_branch].
  destruct (disconnect mf) as [[]|?]; simpl; [|error_branch].
  destruct (format_emails_returns py app (start_idx pg)
              (default "transformer" (args_model request)) emails 0%nat
              (page_calls (page_email_ids pg) per_page))
    as (formatted & evs & Hloop & _ & Hcalls & _).
  unfold page_calls in *. simpl in Hloop. rewrite Hloop.
  do 2 eexists. split; [reflexivity|]. right; right.
  exists mf, page, per_page, (email_id :: rest), pg, emails, formatted, evs.
  repeat (split; [first [reflexivity | assumption | discriminate]|]).
  change (count_disconnect
            (page_calls (page_email_ids pg) per_page ++ evs) = 1%nat).
  rewrite (count_disconnect_calls _ _ 0%nat Hcalls). reflexivity.
Qed.

(** A response that carries ['start_index'] is a page: the messages were
    fetched, the session was released, and the loop ran over them. *)
Lemma fetch_emails_page_inv (request : Request) (resp : Response)
    (tr : list event) (v : pyval) :
  run (fetch_emails py app request) = (Ok resp, tr) ->
  response_start_index resp = Some v ->
  exists mf page per_page pg emails formatted,
    mail_fetcher app = Some mf /\
    start_idx pg = (page - 1) * per_page /\
    fetch_multiple_emails mf (page_email_ids pg) per_page = Ok emails /\
    response_emails resp = map PDict formatted /\
    body resp
    = [ ("emails", PList (map PDict formatted));
        ("total_emails", PInt (total_emails pg));
        ("current_page", PInt page);
        ("total_pages", PInt (total_pages pg));
        ("per_page", PInt per_page);
        ("start_index", PInt (start_idx pg + 1));
        ("end_index", PInt (Z.min (start_idx pg + per_page) (total_emails pg)));
        ("message",
         PStr (pretty (length formatted)
               +:+ " emails fetched and analyzed successfully")) ] /\
    length formatted = length emails /\
    forall j email,
      emails !! j = Some email ->
      exists d block,
        formatted !! j = Some d /\
        fst (analyze_message py app j email
               (default "transformer" (args_model request)) []) = Ok block /\
        forall k, translator_keeps k app ->
          dict_get k d
          = dict_get k (dict_set "analysis" block
                          (email_fields (start_idx pg) j email)).
Proof.
  intros Hrun Hpage.
  destruct (fetch_emails_cases request) as (resp' & tr' & Hrun' & Hcases).
  rewrite Hrun in Hrun'. injection Hrun' as <- <-.
  destruct Hcases as [(msg & -> & _) | [(page & per_page & -> & _) | Hpg]];
    [discriminate Hpage | discriminate Hpage |].
  destruct Hpg as (mf & page & per_page & email_ids & pg & emails & formatted
                   & evs & Hmf & _ & _ & Hpg & Hfetch & Hloop & -> & _).
  exists mf, page, per_page, pg, emails, formatted.
  split; [exact Hmf|]. split.
  { unfold calculate_pagination, mbind, result_bind in Hpg.
    destruct (py_floordiv _ per_page); [|discriminate].
    injection Hpg as <-. reflexivity. }
  split; [exact Hfetch|]. split; [reflexivity|]. split; [reflexivity|].
  destruct (format_emails_returns py app (start_idx pg)
              (default "transformer" (args_model request)) emails 0%nat
              (page_calls (page_email_ids pg) per_page))
    as (formatted' & evs' & Hloop' & Hlen & _ & Hentries).
  rewrite Hloop in Hloop'. injection Hloop' as <- _.
  split; [exact Hlen|].
  intros j email Hj.
  destruct (Hentries j email Hj) as (d & block & Hd & Hb & Hkeys & _).
  exists d, block. change (0 + j)%nat with j in *. auto.
Qed.


(** C5: when the search returns no message id, the handler releases the
    session and answers with status 200 and the empty envelope:
    [emails = []], [total_emails = 0], [total_pages = 0], and no
    ['error']. *)
Theorem empty_search_is_an_empty_page (request : Request) (mf : MailFetcher)
    (page per_page : Z) :
  mail_fetcher app = Some mf ->
  int_arg py (args_page request) 1 = Ok page ->
  int_arg py (args_per_page request) 10 = Ok per_page ->
  connect mf = Ok true ->
  select_mailbox mf "INBOX" = Ok tt ->
  search_emails mf "ALL" 30 = Ok [] ->
  disconnect mf = Ok tt ->
  exists resp tr,
    run (fetch_emails py app request) = (Ok resp, tr) /\
    status_code resp = 200 /\
    dict_get "emails" (body resp) = Some (PList []) /\
    dict_get "total_emails" (body resp) = Some (PInt 0) /\
    dict_get "total_pages" (body resp) = Some (PInt 0) /\
    dict_get "error" (body resp) = None /\
    last tr = Some Disconnect /\
    count_disconnect tr = 1%nat.
Proof.
  intros Hmf Hpage Hper Hconnect Hselect Hsearch Hdisconnect.
  do 2 eexists. split.
  - unfold fetch_emails. io_unfold.
    rewrite Hmf, Hpage, Hper, Hconnect. simpl.
    rewrite Hselect, Hsearch, Hdisconnect. reflexivity.
  - repeat split.
Qed.

(** An exception raised by the connector after [connect] has succeeded is
    answered with status 500, and [disconnect] is not invoked at all. *)
Lemma exception_after_connect_skips_disconnect (request : Request)
    (mf : MailFetcher) (page per_page : Z) (e : string) :
  mail_fetcher app = Some mf ->
  int_arg py (args_page request) 1 = Ok page ->
  int_arg py (args_per_page request) 10 = Ok per_page ->
  connect mf = Ok true ->
  select_mailbox mf "INBOX" = Raise e \/
  (select_mailbox mf "INBOX" = Ok tt /\ search_emails mf "ALL" 30 = Raise e) \/
  (exists email_ids pg,
     select_mailbox mf "INBOX" = Ok tt /\
     search_emails mf "ALL" 30 = Ok email_ids /\ email_ids <> [] /\
     calculate_pagination email_ids page per_page = Ok pg /\
     fetch_multiple_emails mf (page_email_ids pg) per_page = Raise e) ->
  exists tr,
    run (fetch_emails py app request)
    = (Ok (jsonify_status
             [("error", PStr ("Failed to fetch emails: " +:+ e))] 500), tr) /\
    In Connect tr /\
    count_disconnect tr = 0%nat.
Proof.
  intros Hmf Hpage Hper Hconnect Hraise.
  unfold fetch_emails. io_unfold. rewrite Hmf, Hpage, Hper, Hconnect. simpl.
  destruct Hraise as [Hsel | [[Hsel Hsearch] | Hfetch]].
  - rewrite Hsel. eexists. split; [reflexivity|]. split; [left; reflexivity|].
    reflexivity.
  - rewrite Hsel, Hsearch. eexists.
    split; [reflexivity|]. split; [left; reflexivity|]. reflexivity.
  - destruct Hfetch as (email_ids & pg & Hsel & Hsearch & Hne & Hpg & Hfetch).
    rewrite Hsel, Hsearch. simpl.
    destruct email_ids as [|email_id rest]; [congruence|].
    rewrite Hpg. simpl. rewrite Hfetch. eexists.
    split; [reflexivity|]. split; [left; reflexivity|]. reflexivity.
Qed.

(** X6: on no path is [disconnect] invoked twice, and a request answered with
    status 200 has invoked it exactly once. *)
Lemma disconnect_at_most_once (request : Request) (resp : Response)
    (tr : list event) :
  run (fetch_emails py app request) = (Ok resp, tr) ->
  (count_disconnect tr <= 1)%nat /\
  (status_code resp = 200 -> count_disconnect tr = 1%nat).
Proof.
  intros Hrun.
  destruct (fetch_emails_cases request) as (resp' & tr' & Hrun' & Hcases).
  rewrite Hrun in Hrun'. injection Hrun' as <- <-.
  destruct Hcases as [(msg & -> & Hle) | [(page & per_page & -> & ->) | Hpg]].
  - split; [exact Hle|]. simpl. discriminate.
  - split; [|reflexivity]. unfold count_disconnect. simpl. lia.
  - destruct Hpg as (? & ? & ? & ? & ? & ? & ? & ? & _ & _ & _ & _ & _ & _
                     & _ & _ & Hone).
    rewrite Hone. split; [lia | reflexivity].
Qed.

(** C8, amended: in every page the handler answers, the message at offset
    [i] carries [id = start_index - 1 + i], where [start_index] is the
    one-based value of the same envelope: the ids count from
    [(page - 1) * per_page], the zero-based offset of the page (unless the
    translator rebinds ['id']). *)
Theorem message_id_is_zero_based_offset (request : Request) (resp : Response)
    (tr : list event) (s : Z) (i : nat) :
  translator_keeps "id" app ->
  run (fetch_emails py app request) = (Ok resp, tr) ->
  response_start_index resp = Some (PInt s) ->
  (i < length (response_emails resp))%nat ->
  response_id resp i = Some (PInt (s - 1 + Z.of_nat i)) /\
  exists page per_page,
    dict_get "current_page" (body resp) = Some (PInt page) /\
    dict_get "per_page" (body resp) = Some (PInt per_page) /\
    s - 1 = (page - 1) * per_page.
Proof.
  intros Hkeep Hrun Hstart Hi.
  destruct (fetch_emails_page_inv request resp tr (PInt s) Hrun Hstart)
    as (mf & page & per_page & pg & emails & formatted
        & _ & Hidx & _ & Hemails & Hbody & Hlen & Hentries).
  unfold response_start_index in Hstart. rewrite Hbody in Hstart.
  simpl in Hstart. injection Hstart as <-.
  split.
  - rewrite Hemails, length_map, Hlen in Hi.
    destruct (lookup_lt_is_Some_2 emails i Hi) as [email Hemail].
    destruct (Hentries i email Hemail) as (d & block & Hd & _ & Hkeys).
    unfold response_id. rewrite Hemails, list_lookup_fmap, Hd. simpl.
    rewrite (Hkeys "id" Hkeep).
    rewrite dict_get_set_ne by discriminate. simpl.
    do 2 f_equal. lia.
  - exists page, per_page. rewrite Hbody. simpl.
    split; [reflexivity|]. split; [reflexivity|]. lia.
Qed.

End FetchEmails.

(** ** The handler of POST /api/analyze-email *)

Section AnalyzeEmail.

Context (py : Builtins) (app : Services).

(** An answer with status 200 is the envelope of lines 276-284. *)
Lemma analyze_email_ok_inv (request_json : result pyval) (tr tr' : list event)
    (resp : Response) :
  analyze_email py app request_json tr = (Ok resp, tr') ->
  status_code resp = 200 ->
  exists status prediction rounded level,
    label_mapping_get label_mapping_analyze prediction = Ok status /\
    body resp
    = [ ("status", status);
        ("is_normal", PBool (py_eq_str status "Normal"));
        ("confidence", rounded);
        ("confidence_level", PStr level);
        ("prediction", prediction);
        ("analysis_time", PStr (now_isoformat py));
        ("message",
         PStr ("Email analizi tamamlandı. Sonuç: " +:+ py_str py status)) ].
Proof.
  unfold analyze_email. io_unfold.
  destruct (mail_analyzer app) as [ma|]; [|other_status].
  destruct request_json as [data|?]; simpl; [|other_status].
  destruct (truthy data); simpl; [|other_status].
  destruct (py_contains "content" data) as [[|]|?]; simpl;
    [|other_status|other_status].
  destruct (py_getitem data "content") as [email_content|?]; simpl;
    [|other_status].
  destruct (py_get data "subject" (PStr "")) as [email_subject|?]; simpl;
    [|other_status].
  destruct (analyze_single_email ma email_content email_subject)
    as [analysis_result|?]; simpl; [|other_status].
  destruct (truthy analysis_result); simpl; [|other_status].
  destruct (py_get analysis_result "prediction" _) as [prediction|?]; simpl;
    [|other_status].
  destruct (py_get analysis_result "confidence" _) as [confidence|?]; simpl;
    [|other_status].
  destruct (label_mapping_get label_mapping_analyze prediction)
    as [status|?] eqn:Hstatus; simpl; [|other_status].
  destruct (confidence_level confidence) as [level|?]; simpl; [|other_status].
  destruct (round_percent py confidence) as [rounded|?]; simpl;
    [|other_status].
  intros [= <- _] _. exists status, prediction, rounded, level.
  split; [exact Hstatus | reflexivity].
Qed.

(** C10, amended: in every analysis block of [fetch_emails] and in every
    answer of [analyze_email], [is_normal] is true iff the status is
    ['Normal'].  [is_normal] is null exactly in the fallback blocks of
    [fetch_emails], whose status is ['Analiz Edilemedi'] or ['Analiz
    Hatası']; every other block, and every answer of [analyze_email],
    carries a boolean, whatever its status. *)
Theorem is_normal_follows_status :
  (forall i email selected_model tr block,
     fst (analyze_message py app i email selected_model tr) = Ok block ->
     exists status is_normal confidence prediction,
       block = PDict [ ("status", status);
                       ("is_normal", is_normal);
                       ("confidence", confidence);
                       ("prediction", prediction) ] /\
       (is_normal = PBool true <-> status = PStr "Normal") /\
       (is_normal = PNone <-> is_fallback block) /\
       (is_normal = PNone ->
        status = PStr "Analiz Edilemedi" \/ status = PStr "Analiz Hatası") /\
       (is_normal <> PNone ->
        is_normal = PBool (py_eq_str status "Normal") /\
        label_mapping_get label_mapping_fetch prediction = Ok status)) /\
  (forall request_json tr tr' resp,
     analyze_email py app request_json tr = (Ok resp, tr') ->
     status_code resp = 200 ->
     exists status b,
       dict_get "status" (body resp) = Some status /\
       dict_get "is_normal" (body resp) = Some (PBool b) /\
       (b = true <-> status = PStr "Normal")).
Proof.
  split.
  - intros i email selected_model tr block Hblock.
    destruct (analyze_message_block py app i email selected_model tr block Hblock)
      as [Hfb | (v & Hv)].
    + assert (Hstatus : exists status prediction,
                 block = fallback_analysis status prediction /\
                 (status = "Analiz Edilemedi" \/ status = "Analiz Hatası")).
      { destruct Hfb as [-> | [-> | ->]]; do 2 eexists; split; eauto. }
      destruct Hstatus as (status & prediction & -> & Hstatus).
      exists (PStr status), PNone, (PInt 0), (PStr prediction).
      split; [reflexivity|].
      split; [split; [discriminate|]|].
      { intros [= ->]. destruct Hstatus; discriminate. }
      split; [tauto|]. split; [|congruence].
      intros _. destruct Hstatus as [-> | ->]; auto.
    + destruct (classified_analysis_block py v block Hv)
        as (status & confidence & prediction & -> & Hlabel).
      exists status, (PBool (py_eq_str status "Normal")), confidence, prediction.
      split; [reflexivity|].
      split.
      { rewrite <- py_eq_str_iff. split; congruence. }
      split; [split; [discriminate|]|].
      { unfold is_fallback, fallback_analysis.
        intros [H | [H | H]]; discriminate H. }
      split; [discriminate|]. auto.
  - intros request_json tr tr' resp Hrun Hstatus.
    destruct (analyze_email_ok_inv request_json tr tr' resp Hrun Hstatus)
      as (status & prediction & rounded & level & _ & Hbody).
    exists status, (py_eq_str status "Normal"). rewrite Hbody. simpl.
    split; [reflexivity|]. split; [reflexivity|]. apply py_eq_str_iff.
Qed.

End AnalyzeEmail.

(** ** Concrete runs *)

Lemma no_translator_keeps (k : string) (mf : MailFetcher)
    (mm : option ModelManager) :
  translator_keeps k (services_with mf mm).
Proof. intros ts i d Hts. discriminate Hts. Qed.

(** The model layer raises on the first message; the second one is
    classified all the same. *)
Lemma sample_page_run_value :
  exists resp,
    sample_page_run
    = (Ok resp,
       [ Connect; SelectMailbox "INBOX"; SearchEmails "ALL" 30;
         FetchMultipleEmails ["2"; "1"] 10; Disconnect;
         ModelAnalyzeEmail 0 "Merhaba" "Teklif" "transformer";
         ModelAnalyzeEmail 1 "Merhaba" "Teklif" "transformer" ]) /\
    status_code resp = 200 /\
    response_start_index resp = Some (PInt 1) /\
    length (response_emails resp) = 2%nat /\
    response_id resp 0 = Some (PInt 0) /\
    response_id resp 1 = Some (PInt 1) /\
    response_analysis resp 0 = Some (fallback_analysis "Analiz Hatası" "ERROR") /\
    response_analysis resp 1
    = Some (PDict [ ("status", PStr "Normal");
                    ("is_normal", PBool true);
                    ("confidence", PFloat (S754_finite false 7036874417766400 (-47)));
                    ("prediction", PStr "LABEL_0") ]).
Proof.
  eexists. split; [vm_compute; reflexivity|].
  repeat split.
Qed.


Lemma empty_content_is_not_analyzed_witness :
  analyze_message sample_builtins
    (services_with working_fetcher (Some flaky_model))
    0 silent_message "svm" []
  = (Ok (PDict [ ("status", PStr "Analiz Edilemedi");
                 ("is_normal", PNone);
                 ("confidence", PInt 0);
                 ("prediction", PStr "NO_ANALYZER") ]), []).
Proof.
  apply (proj1 (empty_content_is_not_analyzed sample_builtins
                  (services_with working_fetcher (Some flaky_model))
                  0%nat silent_message "svm" [] (or_introl eq_refl))).
Defined.

Lemma empty_search_is_an_empty_page_witness :
  exists resp tr,
    run (fetch_emails sample_builtins (services_with empty_fetcher None)
           default_request) = (Ok resp, tr) /\
    status_code resp = 200 /\
    dict_get "total_pages" (body resp) = Some (PInt 0).
Proof.
  destruct (empty_search_is_an_empty_page sample_builtins
              (services_with empty_fetcher None) default_request
              empty_fetcher 1 10
              eq_refl eq_refl eq_refl eq_refl eq_refl eq_refl eq_refl)
    as (resp & tr & Hrun & Hstatus & _ & _ & Hpages & _).
  exists resp, tr. split; [exact Hrun|]. split; [exact Hstatus | exact Hpages].
Defined.

(** C1 fails on the code: once [connect] has succeeded, an exception
    raised by [select_mailbox], [search_emails] or [fetch_multiple_emails]
    goes to the outer handler, which answers with status 500 and never
    invokes [disconnect]; the session is left open. *)
Theorem session_left_open_on_exception (py : Builtins) (app : Services)
    (request : Request) (mf : MailFetcher) (page per_page : Z) (e : string) :
  mail_fetcher app = Some mf ->
  int_arg py (args_page request) 1 = Ok page ->
  int_arg py (args_per_page request) 10 = Ok per_page ->
  connect mf = Ok true ->
  select_mailbox mf "INBOX" = Raise e \/
  (select_mailbox mf "INBOX" = Ok tt /\ search_emails mf "ALL" 30 = Raise e) \/
  (exists email_ids pg,
     select_mailbox mf "INBOX" = Ok tt /\
     search_emails mf "ALL" 30 = Ok email_ids /\ email_ids <> [] /\
     calculate_pagination email_ids page per_page = Ok pg /\
     fetch_multiple_emails mf (page_email_ids pg) per_page = Raise e) ->
  exists tr,
    run (fetch_emails py app request)
    = (Ok (jsonify_status
             [("error", PStr ("Failed to fetch emails: " +:+ e))] 500), tr) /\
    In Connect tr /\
    count_disconnect tr = 0%nat /\
    count_disconnect tr <> 1%nat.
Proof.
  intros Hmf Hpage Hper Hconnect Hraise.
  destruct (exception_after_connect_skips_disconnect py app request mf page
              per_page e Hmf Hpage Hper Hconnect Hraise)
    as (tr & Hrun & Hin & Hzero).
  exists tr. rewrite Hzero. repeat split; [exact Hrun | exact Hin | discriminate].
Qed.

Lemma session_left_open_on_exception_witness :
  exists tr,
    run (fetch_emails sample_builtins (services_with failing_fetcher None)
           default_request)
    = (Ok (jsonify_status
             [("error", PStr "Failed to fetch emails: socket error: EOF")] 500),
       tr) /\
    In Connect tr /\
    count_disconnect tr = 0%nat /\
    count_disconnect tr <> 1%nat.
Proof.
  apply (session_left_open_on_exception sample_builtins
           (services_with failing_fetcher None) default_request
           failing_fetcher 1 10 "socket error: EOF"
           eq_refl eq_refl eq_refl eq_refl (or_introl eq_refl)).
Defined.

(** C8, as stated, fails: on the first page the first message carries
    [id = 0] while [start_index] is 1, and [0 <> 1 + 0]. *)
Lemma first_message_id_is_not_start_index :
  exists resp tr,
    sample_page_run = (Ok resp, tr) /\
    response_start_index resp = Some (PInt 1) /\
    response_id resp 0 = Some (PInt 0) /\
    response_id resp 0 <> Some (PInt (1 + Z.of_nat 0)).
Proof.
  do 2 eexists. split; [vm_compute; reflexivity|].
  split; [reflexivity|]. split; [reflexivity|]. discriminate.
Qed.

Lemma message_id_is_zero_based_offset_witness :
  exists resp tr,
    sample_page_run = (Ok resp, tr) /\
    response_id resp 1 = Some (PInt 1).
Proof.
  destruct sample_page_run_value as (resp & Hrun & _ & Hstart & Hlen & _).
  assert (Hi : (1 < length (response_emails resp))%nat)
    by (rewrite Hlen; lia).
  destruct (message_id_is_zero_based_offset sample_builtins
              (services_with working_fetcher (Some flaky_model))
              default_request resp _ 1 1%nat
              (no_translator_keeps "id" _ _) Hrun Hstart Hi) as [Hid _].
  eexists resp, _. split; [exact Hrun | exact Hid].
Defined.

(** C10, as stated, fails: a block whose status is ['Analiz Hatası'] need
    not have a null [is_normal].  When the model layer answers with that
    text as its raw token, the token passes through the normalizer and the
    block carries [is_normal = false]. *)
Lemma fallback_status_with_boolean_is_normal :
  fst (analyze_message sample_builtins
         (services_with working_fetcher (Some echo_model))
         0 sample_message "transformer" [])
  = Ok (PDict [ ("status", PStr "Analiz Hatası");
                ("is_normal", PBool false);
                ("confidence", PFloat (S754_finite false 7036874417766400 (-47)));
                ("prediction", PStr "Analiz Hatası") ]) /\
  PBool false <> PNone.
Proof. split; [vm_compute; reflexivity | discriminate]. Qed.

Lemma is_normal_follows_status_witness :
  exists block is_normal,
    fst (analyze_message sample_builtins
           (services_with working_fetcher (Some flaky_model))
           1 sample_message "transformer" []) = Ok block /\
    block_field "status" block = Some (PStr "Normal") /\
    block_field "is_normal" block = Some is_normal /\
    (is_normal = PBool true <-> PStr "Normal" = PStr "Normal").
Proof.
  destruct (proj1 (is_normal_follows_status sample_builtins
                     (services_with working_fetcher (Some flaky_model)))
              1%nat sample_message "transformer" [] _ eq_refl)
    as (status & is_normal & confidence & prediction & Hblock & Htrue & _).
  injection Hblock as <- <- _ _.
  eexists _, _. split; [reflexivity|].
  split; [reflexivity|]. split; [reflexivity|]. exact Htrue.
Defined.

(** * Further properties of the code *)

(** ** GET /api/fetch-emails: the answers and the calls *)

Section FetchEmailsAnswers.

Context (py : Builtins) (app : Services).

(** X1: the handler never lets an exception out: every request is answered,
    either with status 500 and a body that is exactly [{error: text}], or
    with status 200 and an envelope that has no ['error'] and carries the
    list ['emails'] and the counters. *)
Theorem fetch_emails_always_answers (request : Request) :
  exists resp tr,
    run (fetch_emails py app request) = (Ok resp, tr) /\
    ((status_code resp = 500 /\
      exists msg, body resp = [("error", PStr msg)]) \/
     (status_code resp = 200 /\
      dict_get "error" (body resp) = None /\
      exists emails total pages,
        dict_get "emails" (body resp) = Some (PList emails) /\
        dict_get "total_emails" (body resp) = Some (PInt total) /\
        dict_get "total_pages" (body resp) = Some (PInt pages))).
Proof.
  destruct (fetch_emails_cases py app request) as (resp & tr & Hrun & Hcases).
  exists resp, tr. split; [exact Hrun|].
  destruct Hcases as [(msg & -> & _) | [(page & per_page & -> & _) | Hpg]].
  - left. split; [reflexivity|]. exists msg. reflexivity.
  - right. split; [reflexivity|]. split; [reflexivity|].
    exists [], 0, 0. repeat split.
  - destruct Hpg as (mf & page & per_page & email_ids & pg & emails & formatted
                     & evs & _ & _ & _ & _ & _ & _ & -> & _).
    right. split; [reflexivity|]. split; [reflexivity|].
    exists (map PDict formatted), (total_emails pg), (total_pages pg).
    repeat split.
Qed.

(** X2: a request that cannot be served is rejected before any connection is
    opened: with no mail fetcher, or with a [page] or [per_page] that
    [int] rejects, the answer is 500 and no call is made at all. *)
Theorem rejected_request_opens_no_connection (request : Request) :
  (mail_fetcher app = None ->
   run (fetch_emails py app request)
   = (Ok (jsonify_status [("error", PStr "Mail fetcher not initialized")] 500),
      [])) /\
  (forall mf e,
     mail_fetcher app = Some mf ->
     int_arg py (args_page request) 1 = Raise e \/
     (exists page, int_arg py (args_page request) 1 = Ok page /\
                   int_arg py (args_per_page request) 10 = Raise e) ->
     run (fetch_emails py app request)
     = (Ok (jsonify_status
              [("error", PStr ("Failed to fetch emails: " +:+ e))] 500), [])).
Proof.
  split.
  - intros Hmf. unfold fetch_emails. io_unfold. rewrite Hmf. reflexivity.
  - intros mf e Hmf Hbad. unfold fetch_emails. io_unfold. rewrite Hmf.
    destruct Hbad as [Hpage | (page & Hpage & Hper)].
    + rewrite Hpage. reflexivity.
    + rewrite Hpage, Hper. reflexivity.
Qed.

(** X3: when the server refuses the connection ([connect] returns [False])
    the answer is 500 with the text of line 89; when [connect] raises,
    the answer is the 500 of the outer handler.  Either way [connect] is
    the only call: nothing is selected, searched or released. *)
Theorem failed_connect_makes_no_other_call (request : Request)
    (mf : MailFetcher) (page per_page : Z) :
  mail_fetcher app = Some mf ->
  int_arg py (args_page request) 1 = Ok page ->
  int_arg py (args_per_page request) 10 = Ok per_page ->
  (connect mf = Ok false ->
   run (fetch_emails py app request)
   = (Ok (jsonify_status
            [("error", PStr "Failed to connect to email server")] 500),
      [Connect])) /\
  (forall e,
     connect mf = Raise e ->
     run (fetch_emails py app request)
     = (Ok (jsonify_status
              [("error", PStr ("Failed to fetch emails: " +:+ e))] 500),
        [Connect])).
Proof.
  intros Hmf Hpage Hper. split.
  - intros Hconnect. unfold fetch_emails. io_unfold.
    rewrite Hmf, Hpage, Hper, Hconnect. reflexivity.
  - intros e Hconnect. unfold fetch_emails. io_unfold.
    rewrite Hmf, Hpage, Hper, Hconnect. reflexivity.
Qed.

(** X4: [per_page = 0] is not rejected at the boundary.  On a mailbox that is
    not empty the division of line 110 raises after the search: the
    answer is 500, nothing is fetched, and the session is not released.
    On an empty mailbox the same request is answered 200. *)
Theorem per_page_zero_fails_after_search (request : Request)
    (mf : MailFetcher) (page : Z) (email_ids : list string) :
  mail_fetcher app = Some mf ->
  int_arg py (args_page request) 1 = Ok page ->
  int_arg py (args_per_page request) 10 = Ok 0 ->
  connect mf = Ok true ->
  select_mailbox mf "INBOX" = Ok tt ->
  search_emails mf "ALL" 30 = Ok email_ids ->
  (email_ids <> [] ->
   exists e,
     run (fetch_emails py app request)
     = (Ok (jsonify_status
              [("error", PStr ("Failed to fetch emails: " +:+ e))] 500),
        [Connect; SelectMailbox "INBOX"; SearchEmails "ALL" 30])) /\
  (email_ids = [] -> disconnect mf = Ok tt ->
   exists resp,
     run (fetch_emails py app request)
     = (Ok resp,
        [Connect; SelectMailbox "INBOX"; SearchEmails "ALL" 30; Disconnect]) /\
     status_code resp = 200 /\
     dict_get "per_page" (body resp) = Some (PInt 0)).
Proof.
  intros Hmf Hpage Hper Hconnect Hselect Hsearch. split.
  - intros Hne. unfold fetch_emails. io_unfold.
    rewrite Hmf, Hpage, Hper, Hconnect. simpl. rewrite Hselect, Hsearch.
    destruct email_ids as [|email_id rest]; [congruence|].
    eexists. reflexivity.
  - intros -> Hdisconnect. eexists. split.
    + unfold fetch_emails. io_unfold.
      rewrite Hmf, Hpage, Hper, Hconnect. simpl.
      rewrite Hselect, Hsearch, Hdisconnect. reflexivity.
    + split; reflexivity.
Qed.

(** X5: in every page the handler answers, the connector was called exactly
    five times, in the order connect, select ['INBOX'], search ['ALL']
    over 30 days, fetch, disconnect; the fetch asked for the ids of the
    page with [max_emails = per_page]; and every call of the model layer
    or of the translator comes after the disconnect. *)
Theorem page_calls_in_order (request : Request) (resp : Response)
    (tr : list event) (v : pyval) :
  run (fetch_emails py app request) = (Ok resp, tr) ->
  response_start_index resp = Some v ->
  exists mf page per_page email_ids evs,
    mail_fetcher app = Some mf /\
    search_emails mf "ALL" 30 = Ok email_ids /\
    dict_get "current_page" (body resp) = Some (PInt page) /\
    dict_get "per_page" (body resp) = Some (PInt per_page) /\
    tr = ([ Connect; SelectMailbox "INBOX"; SearchEmails "ALL" 30;
            FetchMultipleEmails (page_ids email_ids per_page page) per_page;
            Disconnect ] ++ evs)%list /\
    Forall (fun ev => is_model_call ev = true \/
                      exists i d, ev = TranslateEmailContent i d) evs.
Proof.
  intros Hrun Hpage.
  destruct (fetch_emails_cases py app request) as (resp' & tr' & Hrun' & Hcases).
  rewrite Hrun in Hrun'. injection Hrun' as <- <-.
  destruct Hcases as [(msg & -> & _) | [(page & per_page & -> & _) | Hpg]];
    [discriminate Hpage | discriminate Hpage |].
  destruct Hpg as (mf & page & per_page & email_ids & pg & emails & formatted
                   & evs & Hmf & Hsearch & _ & Hpg & _ & Hloop & -> & -> & _).
  exists mf, page, per_page, email_ids, evs.
  split; [exact Hmf|]. split; [exact Hsearch|].
  split; [reflexivity|]. split; [reflexivity|]. split.
  - unfold page_ids. rewrite Hpg. reflexivity.
  - destruct (format_emails_returns py app (start_idx pg)
                (default "transformer" (args_model request)) emails 0%nat
                (page_calls (page_email_ids pg) per_page))
      as (formatted' & evs' & Hloop' & _ & Hcalls & _).
    rewrite Hloop in Hloop'. injection Hloop' as _ Hevs. subst evs'.
    eapply Forall_impl; [exact Hcalls|].
    intros ev [j Hev]. destruct ev; simpl in Hev; try discriminate; eauto.
Qed.

End FetchEmailsAnswers.

(** ** Pagination: all pages, and pages out of range *)

Lemma take_add_drop {A : Type} (l : list A) (a b : nat) :
  take (a + b) l = (take a l ++ take b (drop a l))%list.
Proof.
  revert l. induction a as [|a IH]; intros [|x l]; simpl;
    rewrite ?take_nil; try reflexivity.
  rewrite IH. reflexivity.
Qed.

(** The chunks of [p] elements of a list, put together, are its first
    [n * p] elements. *)
Lemma concat_chunks {A : Type} (l : list A) (p n : nat) :
  concat (map (fun k => take p (drop ((k - 1) * p) l)) (seq 1 n))
  = take (n * p) l.
Proof.
  induction n as [|n IH]; [reflexivity|].
  rewrite seq_S, map_app, concat_app, IH. simpl.
  rewrite app_nil_r. replace (n - 0)%nat with n by lia.
  replace (p + n * p)%nat with (n * p + p)%nat by lia.
  symmetry. apply take_add_drop.
Qed.

Lemma page_ids_chunk {A : Type} (email_ids : list A) (per_page : Z) (k : nat) :
  1 <= per_page -> (1 <= k)%nat ->
  page_ids email_ids per_page (Z.of_nat k)
  = take (Z.to_nat per_page)
      (drop ((k - 1) * Z.to_nat per_page) (rev email_ids)).
Proof.
  intros Hpp Hk.
  unfold page_ids, calculate_pagination, py_floordiv, mbind, result_bind.
  destruct (Z.eqb_spec per_page 0) as [?|_]; [lia|]. simpl.
  rewrite py_slice_nonneg by nia.
  f_equal; [f_equal; lia|]. f_equal. nia.
Qed.

(** X7: the pages 1 to [total_pages] put one after the other are the ids of
    the search, newest first: no id is lost, none is served twice, and
    their order is kept. *)
Theorem pages_partition_the_ids {A : Type} (email_ids : list A)
    (per_page : Z) :
  1 <= per_page ->
  concat (all_pages email_ids per_page) = rev email_ids.
Proof.
  intros Hpp. unfold all_pages.
  set (n := Z.to_nat ((Z.of_nat (length email_ids) + per_page - 1) / per_page)).
  rewrite (map_ext_in _
             (fun k => take (Z.to_nat per_page)
                         (drop ((k - 1) * Z.to_nat per_page) (rev email_ids)))).
  - rewrite concat_chunks. apply take_ge. rewrite length_rev.
    destruct (floordiv_ceiling (Z.of_nat (length email_ids)) per_page Hpp)
      as [_ Hle].
    subst n. nia.
  - intros k Hk. apply in_seq in Hk. apply page_ids_chunk; lia.
Qed.

Lemma pages_partition_the_ids_witness :
  concat (all_pages [1; 2; 3; 4; 5; 6; 7] 3) = [7; 6; 5; 4; 3; 2; 1].
Proof. apply (pages_partition_the_ids [1; 2; 3; 4; 5; 6; 7] 3). lia. Defined.

Lemma py_slice_sublist {A : Type} (l : list A) (start stop : Z) :
  sublist (py_slice l start stop) l.
Proof.
  unfold py_slice.
  etransitivity; [apply sublist_take | apply sublist_drop].
Qed.

(** X8: whatever the page number, a positive [per_page] bounds what is asked
    of the connector: at most [per_page] ids, each of them one of the ids
    the search returned, in the order newest first; ids that are distinct
    stay distinct. *)
Theorem page_never_exceeds_per_page {A : Type} (email_ids : list A)
    (page per_page : Z) :
  1 <= per_page ->
  Z.of_nat (length (page_ids email_ids per_page page)) <= per_page /\
  sublist (page_ids email_ids per_page page) (rev email_ids) /\
  (forall x, In x (page_ids email_ids per_page page) -> In x email_ids) /\
  (NoDup email_ids -> NoDup (page_ids email_ids per_page page)).
Proof.
  intros Hpp.
  assert (Hsub : sublist (page_ids email_ids per_page page) (rev email_ids)).
  { unfold page_ids, calculate_pagination, py_floordiv, mbind, result_bind.
    destruct (Z.eqb_spec per_page 0) as [?|_]; [lia|]. simpl.
    apply py_slice_sublist. }
  split; [|split; [exact Hsub|split]].
  - unfold page_ids, calculate_pagination, py_floordiv, mbind, result_bind.
    destruct (Z.eqb_spec per_page 0) as [?|_]; [lia|]. simpl.
    unfold py_slice, slice_index.
    rewrite length_take, length_drop.
    set (start := (page - 1) * per_page).
    set (len := Z.of_nat (length (rev email_ids))).
    destruct (Z.ltb_spec start 0), (Z.ltb_spec (start + per_page) 0); lia.
  - intros x Hx. apply in_rev. apply list_elem_of_In.
    eapply elem_of_sublist; [|exact Hsub]. apply list_elem_of_In. exact Hx.
  - intros Hnodup. eapply sublist_NoDup; [|exact Hsub].
    apply NoDup_ListNoDup, List.NoDup_rev, NoDup_ListNoDup. exact Hnodup.
Qed.

Lemma page_never_exceeds_per_page_witness :
  Z.of_nat (length (page_ids [1; 2; 3; 4; 5; 6; 7] 3 (-2))) <= 3.
Proof.
  apply (proj1 (page_never_exceeds_per_page [1; 2; 3; 4; 5; 6; 7] (-2) 3
                  ltac:(lia))).
Defined.

(** X9: a page number that is not positive is not rejected either.  Page 0
    selects nothing; page [-k], through the negative indices of the slice
    of line 116, selects the chunk of [per_page] ids that starts at offset
    [k * per_page] of the search result, the oldest ids first in number
    but listed newest first. *)
Theorem nonpositive_page_reads_from_the_old_end {A : Type}
    (email_ids : list A) (page per_page : Z) :
  1 <= per_page -> page <= 0 ->
  page_ids email_ids per_page page
  = if page =? 0 then []
    else rev (take (Z.to_nat per_page)
                (drop (Z.to_nat (- page * per_page)) email_ids)).
Proof.
  intros Hpp Hpage.
  unfold page_ids, calculate_pagination, py_floordiv, mbind, result_bind.
  destruct (Z.eqb_spec per_page 0) as [?|_]; [lia|]. simpl.
  unfold py_slice, slice_index. rewrite length_rev.
  set (n := length email_ids).
  set (start := (page - 1) * per_page).
  destruct (Z.eqb_spec page 0) as [->|Hne].
  - apply nil_length_inv. rewrite length_take, length_drop.
    destruct (Z.ltb_spec start 0), (Z.ltb_spec (start + per_page) 0);
      subst start; lia.
  - set (k := Z.to_nat (- page * per_page)).
    set (p := Z.to_nat per_page).
    assert (Hprod : 1 <= - page * per_page) by nia.
    assert (Hstart : start = - Z.of_nat k - Z.of_nat p).
    { subst start k p. rewrite !Z2Nat.id by lia. ring. }
    assert (Hp : (1 <= p)%nat) by (subst p; lia).
    assert (Hk : (1 <= k)%nat) by (subst k; lia).
    assert (Hpp' : per_page = Z.of_nat p) by (subst p; lia).
    clearbody start k p. subst start per_page.
    destruct (Z.ltb_spec (- Z.of_nat k - Z.of_nat p) 0); [|lia].
    destruct (Z.ltb_spec (- Z.of_nat k - Z.of_nat p + Z.of_nat p) 0); [|lia].
    rewrite skipn_rev, firstn_rev. f_equal.
    rewrite length_take. rewrite firstn_skipn_comm. fold n.
    destruct (le_lt_dec (k + p) n) as [Hfull|Hshort].
    + f_equal; [lia|]. f_equal. lia.
    + destruct (le_lt_dec k n) as [Hin|Hout].
      * rewrite !(take_ge email_ids) by (fold n; lia). f_equal. lia.
      * rewrite !drop_ge; [reflexivity| |]; rewrite length_take; fold n; lia.
Qed.

Lemma nonpositive_page_reads_from_the_old_end_witness :
  page_ids [1; 2; 3; 4; 5; 6; 7] 3 0 = [] /\
  page_ids [1; 2; 3; 4; 5; 6; 7] 3 (-1) = [6; 5; 4].
Proof.
  split.
  - apply (nonpositive_page_reads_from_the_old_end [1; 2; 3; 4; 5; 6; 7] 0 3);
      lia.
  - apply (nonpositive_page_reads_from_the_old_end [1; 2; 3; 4; 5; 6; 7] (-1) 3);
      lia.
Defined.

(** ** Dictionaries: what [update] does *)

Lemma dict_get_set (k k' : string) (v : pyval) (d : pydict) :
  dict_get k (dict_set k' v d) = if String.eqb k k' then Some v else dict_get k d.
Proof.
  destruct (String.eqb_spec k k') as [->|Hne].
  - apply dict_get_set_eq.
  - apply dict_get_set_ne. exact Hne.
Qed.

(** After [d.update(o)] a key is bound as by its last binding in [o], and
    as in [d] when [o] does not bind it. *)
Lemma dict_get_update_last (k : string) (d o : pydict) :
  dict_get k (dict_update d o)
  = match dict_get k (reverse o) with
    | Some v => Some v
    | None => dict_get k d
    end.
Proof.
  unfold dict_update. revert d.
  induction o as [|[k' v'] o IH]; intros d; simpl; [reflexivity|].
  rewrite IH, reverse_cons, dict_get_set.
  assert (Happ : forall l1 l2,
             dict_get k (l1 ++ l2)%list
             = match dict_get k l1 with
               | Some v => Some v
               | None => dict_get k l2
               end).
  { induction l1 as [|[k1 v1] l1 IH1]; intros l2; simpl; [reflexivity|].
    destruct (String.eqb k k1); [reflexivity | apply IH1]. }
  rewrite Happ. simpl.
  destruct (dict_get k (reverse o)); [reflexivity|].
  destruct (String.eqb k k'); reflexivity.
Qed.

(** ** GET /api/fetch-emails: the envelope and the loop *)

Section FetchEmailsLoop.

Context (py : Builtins) (app : Services).

(** X10: in a page with [page >= 1] and [per_page >= 1] the range
    [start_index .. end_index] of the envelope counts the ids that were
    asked of the connector: there are [end_index - start_index + 1] of
    them, and none exactly when [end_index < start_index], which is the
    case of a page past the last one. *)
Theorem index_range_counts_the_requested_ids (request : Request)
    (resp : Response) (tr : list event) (s e page per_page : Z) :
  run (fetch_emails py app request) = (Ok resp, tr) ->
  response_start_index resp = Some (PInt s) ->
  dict_get "end_index" (body resp) = Some (PInt e) ->
  dict_get "current_page" (body resp) = Some (PInt page) ->
  dict_get "per_page" (body resp) = Some (PInt per_page) ->
  1 <= page -> 1 <= per_page ->
  exists ids,
    In (FetchMultipleEmails ids per_page) tr /\
    Z.of_nat (length ids) = Z.max 0 (e - s + 1) /\
    (ids = [] <-> e < s).
Proof.
  intros Hrun Hs He Hpage Hper Hp1 Hpp1.
  destruct (fetch_emails_cases py app request) as (resp' & tr' & Hrun' & Hcases).
  rewrite Hrun in Hrun'. injection Hrun' as <- <-.
  destruct Hcases as [(msg & -> & _) | [(page' & per_page' & -> & _) | Hpg]];
    [discriminate Hs | discriminate Hs |].
  destruct Hpg as (mf & page' & per_page' & email_ids & pg & emails & formatted
                   & evs & _ & _ & _ & Hpg & _ & _ & -> & -> & _).
  unfold response_start_index in Hs. simpl in Hs, He, Hpage, Hper.
  injection Hs as <-. injection He as <-.
  injection Hpage as ->. injection Hper as ->.
  exists (page_email_ids pg).
  split; [unfold page_calls; simpl; auto|].
  unfold calculate_pagination, py_floordiv, mbind, result_bind in Hpg.
  destruct (Z.eqb_spec per_page 0) as [?|_]; [lia|].
  injection Hpg as <-. simpl.
  assert (Hstart : 0 <= (page - 1) * per_page) by nia.
  set (start := (page - 1) * per_page) in *.
  rewrite py_slice_nonneg by lia.
  replace (start + per_page - start) with per_page by lia.
  assert (Hlen : Z.of_nat (length (take (Z.to_nat per_page)
                                     (drop (Z.to_nat start) (rev email_ids))))
                 = Z.max 0 (Z.min (start + per_page)
                              (Z.of_nat (length email_ids)) - (start + 1) + 1)).
  { rewrite length_take, length_drop, length_rev. lia. }
  split; [exact Hlen|].
  rewrite <- length_zero_iff_nil. lia.
Qed.

(** One round of the loop makes exactly the calls of [message_calls]. *)
Lemma format_email_calls (start_idx : Z) (selected_model : string) (i : nat)
    (email : RawMessage) (tr : list event) :
  translator_copies app ->
  snd (format_email py app start_idx selected_model i email tr)
  = (tr ++ message_calls py app start_idx selected_model i email)%list.
Proof.
  intros Hcopy.
  destruct (analyze_message_returns py app i email selected_model tr)
    as (block & evs1 & Hrun & _ & Hblock).
  assert (Hevs1 : evs1
            = if truthy (from_option PStr PNone (msg_content email))
              then match model_manager app with
                   | Some _ =>
                       [ModelAnalyzeEmail i (default "" (msg_content email))
                          (default "" (msg_subject email)) selected_model]
                   | None => []
                   end
              else []).
  { apply (app_inv_head tr).
    change (tr ++ evs1)%list with (snd (Ok block, (tr ++ evs1)%list)).
    rewrite <- Hrun. unfold analyze_message. io_unfold.
    destruct (truthy _); [|simpl; rewrite app_nil_r; reflexivity].
    destruct (model_manager app) as [mm|]; simpl;
      [|rewrite app_nil_r; reflexivity].
    destruct (mm_analyze_email mm i _ _ selected_model) as [v|?]; simpl;
      [|reflexivity].
    destruct (truthy v); [|reflexivity].
    destruct (classified_analysis py v); reflexivity. }
  unfold format_email. unfold mbind at 1. unfold io_bind. rewrite Hrun.
  unfold message_calls, analysis_of. rewrite Hblock, <- Hevs1.
  unfold translate_message.
  destruct (translation_service app) as [ts|] eqn:Hts.
  - pose proof (Hcopy ts i (dict_set "analysis" block
                              (email_fields start_idx i email)) Hts) as Hsame.
    destruct (translate_email_content ts i _) as [d outcome].
    io_unfold. destruct outcome; simpl; rewrite app_assoc; reflexivity.
  - io_unfold. simpl. rewrite !app_nil_r. reflexivity.
Qed.

(** X11: the loop makes its calls message by message, in the order of the
    page: for each message the model layer is called once when there is a
    model manager and the content is not empty, and not at all otherwise;
    then the translator is called once when there is one, on the
    dictionary that already holds the analysis.  (The translator is taken
    to work on a copy of the dictionary it is given.) *)
Theorem loop_calls_message_by_message (start_idx : Z)
    (selected_model : string) (emails : list RawMessage) (tr : list event) :
  translator_copies app ->
  snd (format_emails py app start_idx selected_model 0 emails tr)
  = (tr ++ concat (imap (message_calls py app start_idx selected_model)
                     emails))%list.
Proof.
  intros Hcopy.
  assert (Hgen : forall i tr,
             snd (format_emails py app start_idx selected_model i emails tr)
             = (tr ++ concat
                        (imap (fun j => message_calls py app start_idx
                                          selected_model (i + j)) emails))%list).
  { clear tr. induction emails as [|email rest IH]; intros i tr.
    - simpl. rewrite app_nil_r. reflexivity.
    - destruct (format_email_returns py app start_idx selected_model i email tr)
        as (d & evs1 & block & Hrun & _).
      pose proof (format_email_calls start_idx selected_model i email tr Hcopy)
        as Hcalls.
      rewrite Hrun in Hcalls. simpl in Hcalls. apply app_inv_head in Hcalls.
      destruct (format_emails_returns py app start_idx selected_model rest
                  (S i) (tr ++ evs1)%list)
        as (formatted & evs2 & Hrest & _).
      pose proof (IH (S i) (tr ++ evs1)%list) as Htail.
      rewrite Hrest in Htail. simpl in Htail.
      simpl. unfold mbind at 1. unfold io_bind. rewrite Hrun.
      unfold mbind at 1. unfold io_bind. rewrite Hrest. simpl.
      rewrite Htail, Hcalls, Nat.add_0_r, <- app_assoc.
      do 2 f_equal. f_equal. apply imap_ext. intros j e _. simpl.
      f_equal. lia. }
  apply (Hgen 0%nat tr).
Qed.

(** X12: a translator that raises costs a message nothing but the translated
    fields: the entry is the dictionary of lines 126-133 with the analysis
    attached, exactly as when there is no translator.  A translator that
    returns an overlay adds its fields to that dictionary, and a field of
    the overlay wins over the field of the same name. *)
Theorem translation_is_an_overlay (start_idx : Z) (selected_model : string)
    (i : nat) (email : RawMessage) (tr : list event) :
  translator_copies app ->
  exists block entry,
    fst (analyze_message py app i email selected_model tr) = Ok block /\
    fst (format_email py app start_idx selected_model i email tr) = Ok entry /\
    match translation_service app with
    | None => entry = dict_set "analysis" block (email_fields start_idx i email)
    | Some ts =>
        match snd (translate_email_content ts i
                     (dict_set "analysis" block (email_fields start_idx i email)))
        with
        | Raise _ =>
            entry = dict_set "analysis" block (email_fields start_idx i email)
        | Ok overlay =>
            forall k,
              dict_get k entry
              = match dict_get k (reverse overlay) with
                | Some v => Some v
                | None => dict_get k (dict_set "analysis" block
                                        (email_fields start_idx i email))
                end
        end
    end.
Proof.
  intros Hcopy.
  destruct (analyze_message_returns py app i email selected_model tr)
    as (block & evs1 & Hrun & _ & _).
  exists block. unfold format_email. unfold mbind at 1. unfold io_bind.
  rewrite Hrun. simpl. unfold translate_message.
  destruct (translation_service app) as [ts|] eqn:Hts.
  - pose proof (Hcopy ts i (dict_set "analysis" block
                              (email_fields start_idx i email)) Hts) as Hsame.
    destruct (translate_email_content ts i _) as [d outcome].
    simpl in Hsame. subst d. io_unfold. destruct outcome as [overlay|e]; simpl.
    + eexists. split; [reflexivity|]. split; [reflexivity|].
      intros k. apply dict_get_update_last.
    + eexists. split; [reflexivity|]. split; reflexivity.
  - io_unfold. eexists. split; [reflexivity|]. split; reflexivity.
Qed.

End FetchEmailsLoop.

(** ** The preview of a message (line 132) *)

Lemma py_len_append (s1 s2 : string) :
  py_len (s1 +:+ s2) = (py_len s1 + py_len s2)%nat.
Proof.
  induction s1 as [|c s1 IH]; simpl; [reflexivity|].
  destruct (is_continuation c); rewrite IH; reflexivity.
Qed.

(** A prefix of [n] characters has [n] characters, or all of them. *)
Lemma py_len_take (n : nat) (s : string) :
  py_len (py_take n s) = Nat.min n (py_len s).
Proof.
  revert n. induction s as [|c s IH]; intros n; simpl.
  - rewrite Nat.min_0_r. reflexivity.
  - destruct (is_continuation c) eqn:Hc; simpl.
    + rewrite Hc. apply IH.
    + destruct n as [|n]; simpl; [reflexivity|].
      rewrite Hc, IH. reflexivity.
Qed.

Lemma prefix_py_take (n : nat) (s : string) :
  String.prefix (py_take n s) s = true.
Proof.
  revert n. induction s as [|c s IH]; intros n; simpl; [reflexivity|].
  destruct (is_continuation c); [|destruct n as [|n]; [reflexivity|]];
    simpl; (destruct (Ascii.ascii_dec c c) as [_|Hne]; [apply IH | congruence]).
Qed.

(** Taking all the characters of a str takes the str. *)
Lemma py_take_all (n : nat) (s : string) :
  (py_len s <= n)%nat -> py_take n s = s.
Proof.
  revert n. induction s as [|c s IH]; intros n Hn; simpl in *; [reflexivity|].
  destruct (is_continuation c).
  - rewrite IH by exact Hn. reflexivity.
  - destruct n as [|n]; [lia|]. rewrite IH by lia. reflexivity.
Qed.

(** The first characters of a str are not changed by cutting it further
    on and appending a text that starts a character. *)
Lemma py_take_append_take (n m : nat) (s t : string) :
  py_take 0 t = "" -> (n <= m)%nat -> (m <= py_len s)%nat ->
  py_take n (py_take m s +:+ t) = py_take n s.
Proof.
  intros Ht. revert n m.
  induction s as [|c s IH]; intros n m Hn Hm; simpl in *.
  - assert (n = 0%nat) as -> by lia. exact Ht.
  - destruct (is_continuation c) eqn:Hc; simpl.
    + rewrite Hc, IH by assumption. reflexivity.
    + destruct m as [|m].
      * assert (n = 0%nat) as -> by lia. simpl. exact Ht.
      * simpl. rewrite Hc. destruct n as [|n]; [reflexivity|].
        rewrite IH by lia. reflexivity.
Qed.

(** X13: the preview of a content of at most 150 characters is the content
    itself; of a longer one it is its first 150 characters followed by
    ['...'].  So a preview never has more than 153 characters.  Characters
    are those of Python, not bytes: a content of 100 letters of two bytes
    each is its own preview. *)
Theorem preview_truncates_at_150 (content : string) :
  ((py_len content <= 150)%nat -> preview content = content) /\
  ((150 < py_len content)%nat ->
   preview content = py_take 150 content +:+ "..." /\
   py_len (py_take 150 content) = 150%nat /\
   String.prefix (py_take 150 content) content = true /\
   py_len (preview content) = 153%nat) /\
  (py_len (preview content) <= 153)%nat /\
  (forall n : nat, (n <= 150)%nat ->
     py_take n (preview content) = py_take n content).
Proof.
  unfold preview.
  destruct (Z.ltb_spec 150 (Z.of_nat (py_len content))) as [Hlong|Hshort].
  - assert (Hhead : py_len (py_take 150 content) = 150%nat)
      by (rewrite py_len_take; lia).
    assert (Hlen : py_len (py_take 150 content +:+ "...") = 153%nat)
      by (rewrite py_len_append, Hhead; reflexivity).
    split; [intros; lia|]. split; [|split; [lia|]].
    + intros _. split; [reflexivity|]. split; [exact Hhead|].
      split; [apply prefix_py_take | exact Hlen].
    + intros n Hn. apply py_take_append_take; [reflexivity | exact Hn | lia].
  - split; [reflexivity|]. split; [intros; lia|]. split; [lia | reflexivity].
Qed.

Lemma preview_truncates_at_150_witness :
  preview (string_times "ş" 100) = string_times "ş" 100 /\
  String.length (string_times "ş" 100) = 200%nat /\
  py_len (preview (string_times "a" 151)) = 153%nat.
Proof.
  split; [|split].
  - apply (proj1 (preview_truncates_at_150 (string_times "ş" 100))).
    vm_compute. lia.
  - reflexivity.
  - apply (proj1 (proj2 (preview_truncates_at_150 (string_times "a" 151)))).
    vm_compute. lia.
Defined.

(** ** Confidence given as an integer *)

(** X14: an integer score is compared exactly with the float literals: it is
    ['Yüksek'] from 1 on and ['Düşük'] up to 0, never ['Orta']; a boolean
    counts as 1 or 0; and a score that is not a number makes the
    comparison of line 269 raise. *)
Theorem confidence_level_of_integers :
  (forall z : Z,
     confidence_level (PInt z) = Ok (if 1 <=? z then "Yüksek" else "Düşük")) /\
  (forall b : bool,
     confidence_level (PBool b) = Ok (if b then "Yüksek" else "Düşük")) /\
  (forall v : pyval,
     is_number v = false -> exists e, confidence_level v = Raise e).
Proof.
  assert (Hint : forall z : Z,
             confidence_level (PInt z)
             = Ok (if 1 <=? z then "Yüksek" else "Düşük")).
  { intros z. unfold confidence_level, py_gt, mbind, result_bind.
    unfold Float64.Z_gtb, Float64.lit_0_8, Float64.lit_0_5.
    change (0 <=? -53) with false. cbv iota.
    change (2 ^ (- (-53))) with 9007199254740992.
    destruct (Z.leb_spec 1 z) as [Hz|Hz].
    - destruct (Z.ltb_spec 7205759403792794 (z * 9007199254740992));
        [reflexivity | lia].
    - destruct (Z.ltb_spec 7205759403792794 (z * 9007199254740992)); [lia|].
      destruct (Z.ltb_spec 4503599627370496 (z * 9007199254740992));
        [lia | reflexivity]. }
  split; [exact Hint|]. split.
  - intros [|]; [exact (Hint 1) | exact (Hint 0)].
  - intros v Hv. destruct v; try discriminate Hv; eexists; reflexivity.
Qed.

Lemma confidence_level_of_integers_witness :
  exists e, confidence_level PNone = Raise e.
Proof.
  apply (proj2 (proj2 confidence_level_of_integers) PNone). reflexivity.
Defined.

(** ** POST /api/analyze-email: the answers *)

Section AnalyzeEmailAnswers.

Context (py : Builtins) (app : Services).

(** X15: the handler never lets an exception out and answers with status 200,
    400 or 500; an answer that is not 200 is exactly [{error: text}].  It
    calls the analyzer at most once, and not at all when it answers 400:
    the body is validated before anything is analyzed. *)
Theorem analyze_email_always_answers (request_json : result pyval)
    (tr : list event) :
  exists resp evs,
    analyze_email py app request_json tr = (Ok resp, (tr ++ evs)%list) /\
    (status_code resp = 200 \/ status_code resp = 400 \/ status_code resp = 500) /\
    (status_code resp <> 200 -> exists msg, body resp = [("error", PStr msg)]) /\
    (evs = [] \/ exists content subject, evs = [AnalyzeSingleEmail content subject]) /\
    (status_code resp = 400 -> evs = []) /\
    (status_code resp = 200 -> evs <> []).
Proof.
  unfold analyze_email. io_unfold.
  destruct (mail_analyzer app) as [ma|]; [|quiet_error].
  destruct request_json as [data|?]; simpl; [|quiet_error].
  destruct (truthy data); simpl; [|quiet_error].
  destruct (py_contains "content" data) as [[|]|?]; simpl;
    [|quiet_error|quiet_error].
  destruct (py_getitem data "content") as [email_content|?]; simpl;
    [|quiet_error].
  destruct (py_get data "subject" (PStr "")) as [email_subject|?]; simpl;
    [|quiet_error].
  destruct (analyze_single_email ma email_content email_subject)
    as [analysis_result|?]; simpl; [|called_error].
  destruct (truthy analysis_result); simpl; [|called_error].
  destruct (py_get analysis_result "prediction" _) as [prediction|?]; simpl;
    [|called_error].
  destruct (py_get analysis_result "confidence" _) as [confidence|?]; simpl;
    [|called_error].
  destruct (label_mapping_get label_mapping_analyze prediction)
    as [status|?]; simpl; [|called_error].
  destruct (confidence_level confidence) as [level|?]; simpl; [|called_error].
  destruct (round_percent py confidence) as [rounded|?]; simpl;
    [|called_error].
  do 2 eexists. split; [reflexivity|]. simpl.
  split; [auto|]. split; [congruence|]. split; [eauto|].
  split; [discriminate | intros _; discriminate].
Qed.

(** X16: what [request.get_json()] gives decides between 400 and 500
    before anything is analyzed.  When it returns a false value ([null],
    [{}], [[]], [""], [0], [false]) or an object without the key
    ['content'], the answer is 400 'Email content is required'; when it
    raises, as it does on a request without a JSON body, the answer is
    the 500 of the outer handler.  The analyzer is called in neither
    case. *)
Theorem body_without_content_is_a_400 (ma : MailAnalyzer) (tr : list event) :
  mail_analyzer app = Some ma ->
  (forall data,
     truthy data = false \/
     (exists d, data = PDict d /\ dict_get "content" d = None) ->
     analyze_email py app (Ok data) tr
     = (Ok (jsonify_status [("error", PStr "Email content is required")] 400),
        tr)) /\
  (forall e,
     analyze_email py app (Raise e) tr
     = (Ok (jsonify_status
              [("error", PStr ("Failed to analyze email: " +:+ e))] 500), tr)).
Proof.
  intros Hma. split.
  - intros data Hdata. unfold analyze_email. io_unfold. rewrite Hma. simpl.
    destruct Hdata as [Hfalsy | (d & -> & Hkey)].
    + rewrite Hfalsy. reflexivity.
    + destruct (truthy (PDict d)); [|reflexivity].
      simpl. rewrite Hkey. reflexivity.
  - intros e. unfold analyze_email. io_unfold. rewrite Hma. reflexivity.
Qed.

(** X17: a body that is not an object is never analyzed, and is not always a
    400: a string or a list is answered 400 when it does not contain
    ['content'], but 500 when it does (line 234 then subscripts it with a
    string), and a number or [true] is answered 500 (line 231 tests
    ['content' not in data]). *)
Theorem non_object_body_is_not_analyzed (data : pyval) (ma : MailAnalyzer)
    (tr : list event) :
  mail_analyzer app = Some ma ->
  truthy data = true ->
  (forall d, data <> PDict d) ->
  exists resp,
    analyze_email py app (Ok data) tr = (Ok resp, tr) /\
    (status_code resp = 400 \/ status_code resp = 500) /\
    (status_code resp = 400 <-> py_contains "content" data = Ok false).
Proof.
  intros Hma Htruthy Hobj. unfold analyze_email. io_unfold.
  rewrite Hma. simpl. rewrite Htruthy. simpl.
  destruct data as [| | | | s | l | d]; simpl in *;
    try discriminate Htruthy;
    try (eexists; split; [reflexivity|]; simpl;
         split; [auto|]; split; [discriminate|discriminate]).
  - destruct (bool_decide (is_Some (String.index 0 "content" s))); simpl;
      eexists; (split; [reflexivity|]); simpl;
      (split; [auto|]); split; congruence.
  - destruct (existsb (fun x => py_eq_str x "content") l); simpl;
      eexists; (split; [reflexivity|]); simpl;
      (split; [auto|]); split; congruence.
  - exfalso. apply (Hobj d). reflexivity.
Qed.

(** X18: an object with a ['content'], analyzed to a result whose prediction
    can be hashed and whose confidence is a number (either may be absent:
    the defaults are ['UNKNOWN'] and [0.0]), is answered 200: the status
    is the normalized prediction, [is_normal] says whether it is
    ['Normal'], and the analyzer was called once, with the content and
    with the subject or [''] when there is none. *)
Theorem well_typed_analysis_is_a_200 (d r : pydict) (content : pyval)
    (ma : MailAnalyzer) (tr : list event) :
  let subject := default (PStr "") (dict_get "subject" d) in
  let prediction := default (PStr "UNKNOWN") (dict_get "prediction" r) in
  let confidence := default (PFloat Float64.lit_0_0) (dict_get "confidence" r) in
  mail_analyzer app = Some ma ->
  dict_get "content" d = Some content ->
  analyze_single_email ma content subject = Ok (PDict r) ->
  r <> [] ->
  is_hashable prediction = true ->
  is_number confidence = true ->
  exists status rounded level,
    label_mapping_get label_mapping_analyze prediction = Ok status /\
    round_percent py confidence = Ok rounded /\
    confidence_level confidence = Ok level /\
    analyze_email py app (Ok (PDict d)) tr
    = (Ok (jsonify
             [ ("status", status);
               ("is_normal", PBool (py_eq_str status "Normal"));
               ("confidence", rounded);
               ("confidence_level", PStr level);
               ("prediction", prediction);
               ("analysis_time", PStr (now_isoformat py));
               ("message",
                PStr ("Email analizi tamamlandı. Sonuç: " +:+ py_str py status)) ]),
       (tr ++ [AnalyzeSingleEmail content subject])%list).
Proof.
  intros subject prediction confidence Hma Hcontent Hcall Hr Hhash Hnum.
  assert (Hstatus : exists status,
             label_mapping_get label_mapping_analyze prediction = Ok status).
  { destruct prediction; try discriminate Hhash; eexists; reflexivity. }
  assert (Hround : exists rounded, round_percent py confidence = Ok rounded).
  { destruct confidence; try discriminate Hnum; eexists; reflexivity. }
  assert (Hlevel : exists level, confidence_level confidence = Ok level).
  { unfold confidence_level, py_gt, mbind, result_bind.
    destruct confidence; try discriminate Hnum;
      repeat match goal with
        | |- context [if ?b then _ else _] => destruct b
        end; eexists; reflexivity. }
  destruct Hstatus as [status Hstatus]. destruct Hround as [rounded Hround].
  destruct Hlevel as [level Hlevel].
  exists status, rounded, level.
  split; [exact Hstatus|]. split; [exact Hround|]. split; [exact Hlevel|].
  assert (Hd : truthy (PDict d) = true).
  { destruct d; [discriminate Hcontent | reflexivity]. }
  assert (Hr' : truthy (PDict r) = true).
  { destruct r; [congruence | reflexivity]. }
  assert (Hin : py_contains "content" (PDict d) = Ok true).
  { unfold py_contains. rewrite Hcontent. reflexivity. }
  assert (Hget : py_getitem (PDict d) "content" = Ok content).
  { unfold py_getitem. rewrite Hcontent. reflexivity. }
  unfold analyze_email. io_unfold. rewrite Hma. cbv beta iota.
  io_step Hd. io_step Hin. io_step Hget.
  change (py_get (PDict d) "subject" (PStr "")) with (Ok subject).
  cbv beta iota. io_step Hcall. io_step Hr'.
  change (py_get (PDict r) "prediction" (PStr "UNKNOWN")) with (Ok prediction).
  change (py_get (PDict r) "confidence" (PFloat Float64.lit_0_0))
    with (Ok confidence).
  cbv beta iota. io_step Hstatus. io_step Hlevel. io_step Hround.
  reflexivity.
Qed.

(** X19: the same result is treated differently by the two endpoints when its
    confidence is not a number: the batch path degrades the message to
    the ['Analiz Hatası'] block and goes on, the single-email path
    answers the whole request with 500. *)
Theorem bad_confidence_degrades_or_fails (r : pydict) :
  r <> [] ->
  is_number (default (PFloat Float64.lit_0_0) (dict_get "confidence" r)) = false ->
  (forall mm i email selected_model tr,
     model_manager app = Some mm ->
     truthy (from_option PStr PNone (msg_content email)) = true ->
     mm_analyze_email mm i (default "" (msg_content email))
       (default "" (msg_subject email)) selected_model = Ok (PDict r) ->
     fst (analyze_message py app i email selected_model tr)
     = Ok (fallback_analysis "Analiz Hatası" "ERROR")) /\
  (forall ma d content tr,
     mail_analyzer app = Some ma ->
     dict_get "content" d = Some content ->
     analyze_single_email ma content (default (PStr "") (dict_get "subject" d))
     = Ok (PDict r) ->
     exists resp msg,
       fst (analyze_email py app (Ok (PDict d)) tr) = Ok resp /\
       status_code resp = 500 /\
       body resp = [("error", PStr ("Failed to analyze email: " +:+ msg))]).
Proof.
  intros Hr Hnum.
  set (confidence := default (PFloat Float64.lit_0_0) (dict_get "confidence" r))
    in *.
  assert (Hround : exists e, round_percent py confidence = Raise e).
  { destruct confidence; try discriminate Hnum; eexists; reflexivity. }
  assert (Hlevel : exists e, confidence_level confidence = Raise e).
  { destruct confidence; try discriminate Hnum; eexists; reflexivity. }
  assert (Htruthy : truthy (PDict r) = true).
  { destruct r; [congruence | reflexivity]. }
  split.
  - intros mm i email selected_model tr Hmm Hcontent Hcall.
    unfold analyze_message. rewrite Hcontent, Hmm. io_unfold.
    io_step Hcall. io_step Htruthy.
    unfold classified_analysis, mbind, result_bind.
    change (py_get (PDict r) "confidence" (PFloat Float64.lit_0_0))
      with (Ok confidence).
    destruct Hround as [e Hround].
    destruct (py_get (PDict r) "prediction" (PStr "UNKNOWN")); [|reflexivity].
    destruct (label_mapping_get _ _); [|reflexivity].
    rewrite Hround. reflexivity.
  - intros ma d content tr Hma Hcontent Hcall.
    assert (Hd : truthy (PDict d) = true).
    { destruct d; [discriminate Hcontent | reflexivity]. }
    assert (Hin : py_contains "content" (PDict d) = Ok true).
    { unfold py_contains. rewrite Hcontent. reflexivity. }
    assert (Hget : py_getitem (PDict d) "content" = Ok content).
    { unfold py_getitem. rewrite Hcontent. reflexivity. }
    unfold analyze_email. io_unfold. rewrite Hma. cbv beta iota.
    io_step Hd. io_step Hin. io_step Hget.
    change (py_get (PDict d) "subject" (PStr ""))
      with (Ok (default (PStr "") (dict_get "subject" d))).
    cbv beta iota. io_step Hcall. io_step Htruthy.
    change (py_get (PDict r) "confidence" (PFloat Float64.lit_0_0))
      with (Ok confidence).
    destruct Hlevel as [e Hlevel].
    destruct (py_get (PDict r) "prediction" (PStr "UNKNOWN")); cbv beta iota;
      [|do 2 eexists; split; [reflexivity|]; split; reflexivity].
    destruct (label_mapping_get _ _); cbv beta iota;
      [|do 2 eexists; split; [reflexivity|]; split; reflexivity].
    rewrite Hlevel. cbv beta iota.
    do 2 eexists. split; [reflexivity|]. split; reflexivity.
Qed.

End AnalyzeEmailAnswers.

(** ** Start-up *)

(** What a successful start-up has done. *)
Lemma initialize_services_inv (imp : Imports) (g : Services) :
  fst (initialize_services imp g) = true ->
  exists mf ma loaded mm models_loaded ts status logistic svm,
    MailFetcher_new imp = Ok mf /\
    MailAnalyzer_new imp = Ok ma /\
    MailAnalyzer_load_model imp ma = Ok loaded /\
    ModelManager_new imp = Ok mm /\
    ModelManager_load_models imp mm = Ok models_loaded /\
    truthy models_loaded = true /\
    get_translation_service imp = Ok ts /\
    ModelManager_get_model_status imp mm = Ok status /\
    py_getitem status "logistic_loaded" = Ok logistic /\
    py_getitem status "svm_loaded" = Ok svm /\
    snd (initialize_services imp g)
    = {| mail_fetcher := Some mf;
         mail_analyzer := Some ma;
         model_manager := Some mm;
         translation_service := ts |}.
Proof.
  unfold initialize_services.
  destruct (MailFetcher_new imp) as [mf|] eqn:Hmf; [|discriminate].
  destruct (MailAnalyzer_new imp) as [ma|] eqn:Hma; [|discriminate].
  destruct (MailAnalyzer_load_model imp ma) as [loaded|] eqn:Hload;
    [|discriminate].
  destruct (ModelManager_new imp) as [mm|] eqn:Hmm; [|discriminate].
  destruct (ModelManager_load_models imp mm) as [models_loaded|] eqn:Hmodels;
    [|discriminate].
  destruct (get_translation_service imp) as [ts|] eqn:Hts; [|discriminate].
  destruct (truthy models_loaded) eqn:Htruthy; [|discriminate].
  destruct (ModelManager_get_model_status imp mm) as [status|] eqn:Hstatus;
    [|discriminate].
  destruct (py_getitem status "logistic_loaded") as [logistic|] eqn:Hl;
    [|discriminate].
  destruct (py_getitem status "svm_loaded") as [svm|] eqn:Hs; [|discriminate].
  intros _. exists mf, ma, loaded, mm, models_loaded, ts, status, logistic, svm.
  repeat split; first [reflexivity | assumption].
Qed.

(** X20: start-up succeeds exactly when the three constructors return, the
    loader of the analyzer returns (whether or not the model was loaded),
    [load_models] returns a true value, the translation service is
    obtained, and the status of the model manager is an object with the
    keys ['logistic_loaded'] and ['svm_loaded'], which line 55 reads for
    its log line.  The globals then hold the three objects constructed
    and the translation service. *)
Theorem initialize_services_succeeds_iff (imp : Imports) (g : Services) :
  fst (initialize_services imp g) = true <->
  exists mf ma loaded mm models_loaded ts status logistic svm,
    MailFetcher_new imp = Ok mf /\
    MailAnalyzer_new imp = Ok ma /\
    MailAnalyzer_load_model imp ma = Ok loaded /\
    ModelManager_new imp = Ok mm /\
    ModelManager_load_models imp mm = Ok models_loaded /\
    truthy models_loaded = true /\
    get_translation_service imp = Ok ts /\
    ModelManager_get_model_status imp mm = Ok status /\
    py_getitem status "logistic_loaded" = Ok logistic /\
    py_getitem status "svm_loaded" = Ok svm /\
    snd (initialize_services imp g)
    = {| mail_fetcher := Some mf;
         mail_analyzer := Some ma;
         model_manager := Some mm;
         translation_service := ts |}.
Proof.
  split; [apply initialize_services_inv|].
  unfold initialize_services.
  intros (mf & ma & loaded & mm & models_loaded & ts & status & logistic & svm
          & -> & -> & -> & -> & -> & Htruthy & -> & -> & Hl & Hs & _).
  rewrite Htruthy, Hl, Hs. reflexivity.
Qed.

Lemma initialize_services_succeeds_iff_witness :
  fst (initialize_services working_imports no_services) = true.
Proof.
  apply (proj2 (initialize_services_succeeds_iff working_imports no_services)).
  exists working_fetcher, sample_analyzer, (PBool false), flaky_model,
    (PBool true), (Some subject_translator),
    (PDict [ ("logistic_loaded", PBool true);
             ("svm_loaded", PBool false);
             ("sentence_transformer_loaded", PBool true) ]),
    (PBool true), (PBool false).
  repeat split.
Defined.

(** X21: start-up gives up with the globals half assigned.  When the model
    manager cannot be constructed, the mail fetcher and the analyzer stay
    assigned and the other two globals keep their earlier values; when
    [load_models] returns a false value, start-up fails although all four
    globals have been assigned.  In both cases [main] does not run the
    server. *)
Theorem failed_start_up_keeps_what_was_assigned (imp : Imports)
    (g : Services) (mf : MailFetcher) (ma : MailAnalyzer) (loaded : pyval) :
  MailFetcher_new imp = Ok mf ->
  MailAnalyzer_new imp = Ok ma ->
  MailAnalyzer_load_model imp ma = Ok loaded ->
  (forall e,
     ModelManager_new imp = Raise e ->
     initialize_services imp g
     = (false, {| mail_fetcher := Some mf;
                  mail_analyzer := Some ma;
                  model_manager := model_manager g;
                  translation_service := translation_service g |}) /\
     main imp = None) /\
  (forall mm models_loaded ts,
     ModelManager_new imp = Ok mm ->
     ModelManager_load_models imp mm = Ok models_loaded ->
     truthy models_loaded = false ->
     get_translation_service imp = Ok ts ->
     initialize_services imp g
     = (false, {| mail_fetcher := Some mf;
                  mail_analyzer := Some ma;
                  model_manager := Some mm;
                  translation_service := ts |}) /\
     main imp = None).
Proof.
  intros Hmf Hma Hload. split.
  - intros e Hmm. unfold main, initialize_services.
    rewrite Hmf, Hma, Hload, Hmm. split; reflexivity.
  - intros mm models_loaded ts Hmm Hmodels Hfalsy Hts.
    unfold main, initialize_services.
    rewrite Hmf, Hma, Hload, Hmm, Hmodels, Hts, Hfalsy. split; reflexivity.
Qed.

Lemma failed_start_up_keeps_what_was_assigned_witness :
  initialize_services broken_imports no_services
  = (false, {| mail_fetcher := Some working_fetcher;
               mail_analyzer := Some sample_analyzer;
               model_manager := None;
               translation_service := None |}) /\
  main broken_imports = None.
Proof.
  apply (proj1 (failed_start_up_keeps_what_was_assigned broken_imports
                  no_services working_fetcher sample_analyzer (PBool true)
                  eq_refl eq_refl eq_refl)
           "model files not found" eq_refl).
Defined.

(** The text of an error of GET /api/fetch-emails says where it comes
    from. *)
Lemma fetch_emails_error_text (py : Builtins) (app : Services)
    (request : Request) (resp : Response) (tr : list event) (msg : string) :
  run (fetch_emails py app request) = (Ok resp, tr) ->
  body resp = [("error", PStr msg)] ->
  (mail_fetcher app = None /\ msg = "Mail fetcher not initialized") \/
  msg = "Failed to connect to email server" \/
  exists e, msg = "Failed to fetch emails: " +:+ e.
Proof.
  unfold fetch_emails. io_unfold.
  destruct (mail_fetcher app) as [mf|] eqn:Hmf; [|error_text].
  destruct (int_arg py (args_page request) 1) as [page|?]; [|error_text].
  destruct (int_arg py (args_per_page request) 10) as [per_page|?];
    [|error_text].
  destruct (connect mf) as [[|]|?]; simpl; [|error_text|error_text].
  destruct (select_mailbox mf "INBOX") as [[]|?]; simpl; [|error_text].
  destruct (search_emails mf "ALL" 30) as [email_ids|?]; simpl; [|error_text].
  destruct email_ids as [|email_id rest].
  { destruct (disconnect mf) as [[]|?]; simpl; error_text. }
  destruct (calculate_pagination (email_id :: rest) page per_page) as [pg|?];
    simpl; [|error_text].
  destruct (fetch_multiple_emails mf (page_email_ids pg) per_page)
    as [emails|?]; simpl; [|error_text].
  destruct (disconnect mf) as [[]|?]; simpl; [|error_text].
  destruct (format_emails_returns py app (start_idx pg)
              (default "transformer" (args_model request)) emails 0%nat
              (page_calls (page_email_ids pg) per_page))
    as (formatted & evs & Hloop & _).
  unfold page_calls in Hloop. simpl in Hloop. rewrite Hloop. error_text.
Qed.

(** The text of an error of POST /api/analyze-email says where it comes
    from. *)
Lemma analyze_email_error_text (py : Builtins) (app : Services)
    (request_json : result pyval) (resp : Response) (tr tr' : list event)
    (msg : string) :
  analyze_email py app request_json tr = (Ok resp, tr') ->
  body resp = [("error", PStr msg)] ->
  (mail_analyzer app = None /\ msg = "Mail analyzer not initialized") \/
  msg = "Email content is required" \/
  msg = "Failed to analyze email" \/
  exists e, msg = "Failed to analyze email: " +:+ e.
Proof.
  unfold analyze_email. io_unfold.
  destruct (mail_analyzer app) as [ma|] eqn:Hma; [|error_text].
  destruct request_json as [data|?]; simpl; [|error_text].
  destruct (truthy data); simpl; [|error_text].
  destruct (py_contains "content" data) as [[|]|?]; simpl;
    [|error_text|error_text].
  destruct (py_getitem data "content") as [email_content|?]; simpl;
    [|error_text].
  destruct (py_get data "subject" (PStr "")) as [email_subject|?]; simpl;
    [|error_text].
  destruct (analyze_single_email ma email_content email_subject)
    as [analysis_result|?]; simpl; [|error_text].
  destruct (truthy analysis_result); simpl; [|error_text].
  destruct (py_get analysis_result "prediction" _) as [prediction|?]; simpl;
    [|error_text].
  destruct (py_get analysis_result "confidence" _) as [confidence|?]; simpl;
    [|error_text].
  destruct (label_mapping_get label_mapping_analyze prediction)
    as [status|?]; simpl; [|error_text].
  destruct (confidence_level confidence) as [level|?]; simpl; [|error_text].
  destruct (round_percent py confidence) as [rounded|?]; simpl; error_text.
Qed.

(** X22: when [main] runs the server, the three core services are assigned,
    so no request is turned away for a missing service: an error of
    GET /api/fetch-emails then comes from the connector or from the query
    string, and one of POST /api/analyze-email from the body or from the
    analysis. *)
Theorem running_server_has_its_services (imp : Imports) (g : Services) :
  main imp = Some g ->
  (exists mf ma mm,
     mail_fetcher g = Some mf /\ mail_analyzer g = Some ma /\
     model_manager g = Some mm) /\
  (forall py request resp tr,
     run (fetch_emails py g request) = (Ok resp, tr) ->
     body resp <> [("error", PStr "Mail fetcher not initialized")]) /\
  (forall py request_json resp tr tr',
     analyze_email py g request_json tr = (Ok resp, tr') ->
     body resp <> [("error", PStr "Mail analyzer not initialized")]).
Proof.
  unfold main. intros Hmain.
  destruct (initialize_services imp no_services) as [ok g'] eqn:Hinit.
  destruct ok; [|discriminate]. injection Hmain as ->.
  destruct (initialize_services_inv imp no_services) as
    (mf & ma & loaded & mm & models_loaded & ts & status & logistic & svm
     & _ & _ & _ & _ & _ & _ & _ & _ & _ & _ & Hg);
    [rewrite Hinit; reflexivity|].
  rewrite Hinit in Hg. simpl in Hg. subst g.
  split; [exists mf, ma, mm; repeat split|]. split.
  - intros py request resp tr Hrun Hbody.
    destruct (fetch_emails_error_text py _ request resp tr _ Hrun Hbody)
      as [[Hnone _] | [Hmsg | [e Hmsg]]]; discriminate.
  - intros py request_json resp tr tr' Hrun Hbody.
    destruct (analyze_email_error_text py _ request_json resp tr tr' _
                Hrun Hbody)
      as [[Hnone _] | [Hmsg | [Hmsg | [e Hmsg]]]]; discriminate.
Qed.

Lemma running_server_has_its_services_witness :
  exists g mf ma mm,
    main working_imports = Some g /\
    mail_fetcher g = Some mf /\ mail_analyzer g = Some ma /\
    model_manager g = Some mm.
Proof.
  destruct (running_server_has_its_services working_imports _ eq_refl)
    as [(mf & ma & mm & Hmf & Hma & Hmm) _].
  eexists _, mf, ma, mm. split; [reflexivity|]. auto.
Defined.

(** ** GET /api/status *)

(** X23: the status handler answers 200 with ['status': 'running'] unless the
    status query of the model manager raises, which nothing catches.  Its
    flags tell what the other two handlers will do: with [mail_fetcher]
    false every GET /api/fetch-emails is answered 500 without any call,
    with [mail_analyzer] false so is every POST /api/analyze-email, and
    with [model_manager] false the model flags are all false and every
    message with a content gets the ['Analiz Edilemedi'] / ['UNKNOWN']
    block. *)
Theorem status_flags_tell_the_handlers (py : Builtins) (imp : Imports)
    (app : Services) :
  (forall e,
     get_status py imp app = Raise e <->
     exists mm, model_manager app = Some mm /\
                ModelManager_get_model_status imp mm = Raise e) /\
  (forall resp,
     get_status py imp app = Ok resp ->
     status_code resp = 200 /\
     dict_get "status" (body resp) = Some (PStr "running") /\
     (service_flag "mail_fetcher" resp = Some (PBool false) ->
      forall request,
        run (fetch_emails py app request)
        = (Ok (jsonify_status
                 [("error", PStr "Mail fetcher not initialized")] 500), [])) /\
     (service_flag "mail_analyzer" resp = Some (PBool false) ->
      forall request_json tr,
        analyze_email py app request_json tr
        = (Ok (jsonify_status
                 [("error", PStr "Mail analyzer not initialized")] 500), tr)) /\
     (service_flag "model_manager" resp = Some (PBool false) ->
      dict_get "models" (body resp)
      = Some (PDict [ ("logistic_loaded", PBool false);
                      ("svm_loaded", PBool false);
                      ("sentence_transformer_loaded", PBool false) ]) /\
      forall i email selected_model tr,
        truthy (from_option PStr PNone (msg_content email)) = true ->
        analyze_message py app i email selected_model tr
        = (Ok (fallback_analysis "Analiz Edilemedi" "UNKNOWN"), tr))).
Proof.
  unfold get_status, mbind, result_bind. split.
  - intros e. destruct (model_manager app) as [mm|]; split.
    + destruct (ModelManager_get_model_status imp mm) eqn:Hq; [discriminate|].
      intros [= ->]. exists mm. split; [reflexivity | exact Hq].
    + intros (mm' & [= <-] & ->). reflexivity.
    + discriminate.
    + intros (mm & Hmm & _). discriminate Hmm.
  - intros resp Hresp.
    assert (Hflags : exists model_status,
               resp = jsonify
                 [ ("status", PStr "running");
                   ("services",
                    PDict [ ("mail_fetcher",
                             PBool (bool_decide (is_Some (mail_fetcher app))));
                            ("mail_analyzer",
                             PBool (bool_decide (is_Some (mail_analyzer app))));
                            ("model_manager",
                             PBool (bool_decide (is_Some (model_manager app)))) ]);
                   ("models", model_status);
                   ("timestamp", PStr (now_isoformat py)) ] /\
               (model_manager app = None ->
                model_status
                = PDict [ ("logistic_loaded", PBool false);
                          ("svm_loaded", PBool false);
                          ("sentence_transformer_loaded", PBool false) ])).
    { destruct (model_manager app) as [mm|].
      - destruct (ModelManager_get_model_status imp mm) as [st|];
          [|discriminate].
        injection Hresp as <-. eexists. split; [reflexivity | discriminate].
      - injection Hresp as <-. eexists. split; reflexivity. }
    destruct Hflags as (model_status & -> & Hdefault).
    split; [reflexivity|]. split; [reflexivity|].
    unfold service_flag. simpl. split; [|split].
    + destruct (mail_fetcher app) as [mf|] eqn:Hmf; [discriminate|].
      intros _ request. unfold fetch_emails. io_unfold. rewrite Hmf.
      reflexivity.
    + destruct (mail_analyzer app) as [ma|] eqn:Hma; [discriminate|].
      intros _ request_json tr. unfold analyze_email. io_unfold. rewrite Hma.
      reflexivity.
    + destruct (model_manager app) as [mm|] eqn:Hmm; [discriminate|].
      intros _. split; [rewrite Hdefault; reflexivity|].
      intros i email selected_model tr Hcontent.
      unfold analyze_message. rewrite Hcontent, Hmm. reflexivity.
Qed.

Lemma status_flags_tell_the_handlers_witness :
  exists resp,
    get_status sample_builtins working_imports no_services = Ok resp /\
    status_code resp = 200 /\
    service_flag "mail_fetcher" resp = Some (PBool false).
Proof.
  eexists. split; [reflexivity|].
  split; [|reflexivity].
  apply (proj2 (status_flags_tell_the_handlers sample_builtins working_imports
                  no_services) _ eq_refl).
Defined.

(** ** Concrete runs for the further properties *)

Lemma rejected_request_opens_no_connection_witness :
  run (fetch_emails sample_builtins no_services default_request)
  = (Ok (jsonify_status [("error", PStr "Mail fetcher not initialized")] 500),
     []).
Proof.
  apply (proj1 (rejected_request_opens_no_connection sample_builtins
                  no_services default_request)).
  reflexivity.
Defined.

Lemma failed_connect_makes_no_other_call_witness :
  run (fetch_emails sample_builtins (services_with refusing_fetcher None)
         default_request)
  = (Ok (jsonify_status
           [("error", PStr "Failed to connect to email server")] 500),
     [Connect]).
Proof.
  apply (proj1 (failed_connect_makes_no_other_call sample_builtins
                  (services_with refusing_fetcher None) default_request
                  refusing_fetcher 1 10 eq_refl eq_refl eq_refl)).
  reflexivity.
Defined.

Lemma per_page_zero_fails_after_search_witness :
  exists e,
    run (fetch_emails digit_builtins (services_with working_fetcher None)
           per_page_zero_request)
    = (Ok (jsonify_status
             [("error", PStr ("Failed to fetch emails: " +:+ e))] 500),
       [Connect; SelectMailbox "INBOX"; SearchEmails "ALL" 30]).
Proof.
  apply (proj1 (per_page_zero_fails_after_search digit_builtins
                  (services_with working_fetcher None) per_page_zero_request
                  working_fetcher 1 ["1"; "2"]
                  eq_refl eq_refl eq_refl eq_refl eq_refl eq_refl)).
  discriminate.
Defined.

Lemma page_calls_in_order_witness :
  exists resp tr,
    sample_page_run = (Ok resp, tr) /\
    exists email_ids per_page page evs,
      tr = ([ Connect; SelectMailbox "INBOX"; SearchEmails "ALL" 30;
              FetchMultipleEmails (page_ids email_ids per_page page) per_page;
              Disconnect ] ++ evs)%list.
Proof.
  destruct sample_page_run_value as (resp & Hrun & _ & Hstart & _).
  destruct (page_calls_in_order sample_builtins
              (services_with working_fetcher (Some flaky_model))
              default_request resp _ _ Hrun Hstart)
    as (mf & page & per_page & email_ids & evs & _ & _ & _ & _ & Htr & _).
  eexists resp, _. split; [exact Hrun|].
  exists email_ids, per_page, page, evs. exact Htr.
Defined.

Lemma index_range_counts_the_requested_ids_witness :
  exists resp tr ids,
    sample_page_run = (Ok resp, tr) /\
    In (FetchMultipleEmails ids 10) tr /\
    Z.of_nat (length ids) = 2.
Proof.
  destruct sample_page_run_value as (resp & Hrun & _ & Hstart & _).
  assert (Hbody : dict_get "end_index" (body resp) = Some (PInt 2) /\
                  dict_get "current_page" (body resp) = Some (PInt 1) /\
                  dict_get "per_page" (body resp) = Some (PInt 10)).
  { unfold sample_page_run in Hrun. vm_compute in Hrun.
    injection Hrun as <-. repeat split. }
  destruct Hbody as (Hend & Hpage & Hper).
  destruct (index_range_counts_the_requested_ids sample_builtins
              (services_with working_fetcher (Some flaky_model))
              default_request resp _ 1 2 1 10 Hrun Hstart Hend Hpage Hper
              ltac:(lia) ltac:(lia))
    as (ids & Hin & Hlen & _).
  eexists resp, _, ids. split; [exact Hrun|]. split; [exact Hin | exact Hlen].
Defined.

Lemma subject_translator_copies :
  translator_copies (services_with_translator subject_translator).
Proof. intros ts i d [= <-]. reflexivity. Qed.

Lemma failing_translator_copies :
  translator_copies (services_with_translator failing_translator).
Proof. intros ts i d [= <-]. reflexivity. Qed.

Lemma loop_calls_message_by_message_witness :
  exists block,
    snd (format_emails sample_builtins
           (services_with_translator subject_translator) 0 "svm" 0
           [silent_message; sample_message] [])
    = [ TranslateEmailContent 0
          (dict_set "analysis" (fallback_analysis "Analiz Edilemedi" "NO_ANALYZER")
             (email_fields 0 0 silent_message));
        ModelAnalyzeEmail 1 "Merhaba" "Teklif" "svm";
        TranslateEmailContent 1
          (dict_set "analysis" block (email_fields 0 1 sample_message)) ].
Proof.
  eexists.
  rewrite (loop_calls_message_by_message sample_builtins
             (services_with_translator subject_translator) 0 "svm"
             [silent_message; sample_message] [] subject_translator_copies).
  vm_compute. reflexivity.
Defined.

Lemma translation_is_an_overlay_witness :
  exists block entry,
    fst (format_email sample_builtins
           (services_with_translator failing_translator) 0 "svm" 1
           sample_message []) = Ok entry /\
    entry = dict_set "analysis" block (email_fields 0 1 sample_message).
Proof.
  destruct (translation_is_an_overlay sample_builtins
              (services_with_translator failing_translator) 0 "svm" 1%nat
              sample_message [] failing_translator_copies)
    as (block & entry & _ & Hentry & Hshape).
  exists block, entry. split; [exact Hentry | exact Hshape].
Defined.

Lemma disconnect_at_most_once_witness :
  exists resp tr,
    sample_page_run = (Ok resp, tr) /\ count_disconnect tr = 1%nat.
Proof.
  destruct sample_page_run_value as (resp & Hrun & Hstatus & _).
  destruct (disconnect_at_most_once sample_builtins
              (services_with working_fetcher (Some flaky_model))
              default_request resp _ Hrun) as [_ Hone].
  eexists resp, _. split; [exact Hrun | exact (Hone Hstatus)].
Defined.

Lemma analyze_email_always_answers_witness :
  exists resp evs,
    analyze_email sample_builtins (services_with_analyzer sample_analyzer)
      (Ok PNone) [] = (Ok resp, evs) /\
    status_code resp = 400 /\ evs = [].
Proof.
  destruct (analyze_email_always_answers sample_builtins
              (services_with_analyzer sample_analyzer) (Ok PNone) [])
    as (resp & evs & Hrun & _ & _ & _ & Hquiet & _).
  assert (Hstatus : status_code resp = 400).
  { vm_compute in Hrun. injection Hrun as <- _. reflexivity. }
  exists resp, evs. split; [exact Hrun|]. split; [exact Hstatus|].
  exact (Hquiet Hstatus).
Defined.

Lemma body_without_content_is_a_400_witness :
  analyze_email sample_builtins (services_with_analyzer sample_analyzer)
    (Ok (PDict [("subject", PStr "Teklif")])) []
  = (Ok (jsonify_status [("error", PStr "Email content is required")] 400), []) /\
  analyze_email sample_builtins (services_with_analyzer sample_analyzer)
    (Raise "415 Unsupported Media Type") []
  = (Ok (jsonify_status
           [("error",
             PStr "Failed to analyze email: 415 Unsupported Media Type")] 500),
     []).
Proof.
  destruct (body_without_content_is_a_400 sample_builtins
              (services_with_analyzer sample_analyzer) sample_analyzer []
              eq_refl) as [Hfalsy Hraise].
  split; [|apply Hraise].
  apply Hfalsy. right. eexists. split; reflexivity.
Defined.

Lemma non_object_body_is_not_analyzed_witness :
  exists resp,
    analyze_email sample_builtins (services_with_analyzer sample_analyzer)
      (Ok (PStr "my content")) [] = (Ok resp, []) /\
    (status_code resp = 400 <-> py_contains "content" (PStr "my content") = Ok false).
Proof.
  destruct (non_object_body_is_not_analyzed sample_builtins
              (services_with_analyzer sample_analyzer) (PStr "my content")
              sample_analyzer [] eq_refl eq_refl ltac:(discriminate))
    as (resp & Hrun & _ & Hiff).
  exists resp. split; [exact Hrun | exact Hiff].
Defined.

Lemma well_typed_analysis_is_a_200_witness :
  exists resp,
    analyze_email sample_builtins (services_with_analyzer sample_analyzer)
      (Ok (PDict [("content", PStr "Merhaba")])) []
    = (Ok resp, [AnalyzeSingleEmail (PStr "Merhaba") (PStr "")]) /\
    status_code resp = 200.
Proof.
  destruct (well_typed_analysis_is_a_200 sample_builtins
              (services_with_analyzer sample_analyzer)
              [("content", PStr "Merhaba")]
              [ ("prediction", PStr "LABEL_1");
                ("confidence", PFloat Float64.lit_0_81) ]
              (PStr "Merhaba") sample_analyzer []
              eq_refl eq_refl eq_refl ltac:(discriminate) eq_refl eq_refl)
    as (status & rounded & level & _ & _ & _ & Hrun).
  eexists. split; [exact Hrun | reflexivity].
Defined.

Lemma bad_confidence_degrades_or_fails_witness :
  exists resp,
    fst (analyze_email sample_builtins (services_with_analyzer scoreless_analyzer)
           (Ok (PDict [("content", PStr "Merhaba")])) []) = Ok resp /\
    status_code resp = 500.
Proof.
  destruct (proj2 (bad_confidence_degrades_or_fails sample_builtins
                     (services_with_analyzer scoreless_analyzer)
                     [ ("prediction", PStr "LABEL_1"); ("confidence", PNone) ]
                     ltac:(discriminate) eq_refl)
              scoreless_analyzer [("content", PStr "Merhaba")] (PStr "Merhaba")
              [] eq_refl eq_refl eq_refl)
    as (resp & msg & Hrun & Hstatus & _).
  exists resp. split; [exact Hrun | exact Hstatus].
Defined.

(** C9 fails on the code: the two endpoints do not normalize alike.  The
    table of [analyze_email] lacks the keys ['normal'] and ['anormal'] that
    the table of [fetch_emails] has, so the same result of the model
    layer, with the token ['normal'], is reported as status ['Normal'] with
    [is_normal = true] by GET /api/fetch-emails and as status ['normal']
    with [is_normal = false] by POST /api/analyze-email. *)
Theorem single_email_path_misses_normal :
  normalize_fetch "normal" = "Normal" /\
  normalize_analyze "normal" = "normal" /\
  normalize_fetch "anormal" = "Anormal" /\
  normalize_analyze "anormal" = "anormal" /\
  (exists block,
     fst (analyze_message sample_builtins
            (services_with working_fetcher (Some svm_model))
            0 sample_message "svm" []) = Ok block /\
     block_field "status" block = Some (PStr "Normal") /\
     block_field "is_normal" block = Some (PBool true)) /\
  (exists resp,
     fst (analyze_email sample_builtins (services_with_analyzer svm_analyzer)
            (Ok (PDict [("content", PStr "Merhaba")])) []) = Ok resp /\
     status_code resp = 200 /\
     dict_get "status" (body resp) = Some (PStr "normal") /\
     dict_get "is_normal" (body resp) = Some (PBool false)).
Proof.
  repeat (split; [vm_compute; reflexivity|]).
  split.
  - eexists. split; [vm_compute; reflexivity|]. split; reflexivity.
  - eexists. split; [vm_compute; reflexivity|]. repeat split.
Qed.
